(** * mcp-atlassian: service availability and the Zephyr tool envelope

    A shallow embedding of
      - [src/mcp_atlassian/utils/environment.py] ([get_available_services]),
      - [src/mcp_atlassian/servers/zephyr.py] (the Zephyr tools),
    with the properties the specification states about them.

    Python values are modelled as follows.  A [str] is a [string] (a
    sequence of bytes; [str.lower] acts on the ASCII letters, the only
    characters that can be lowered to the letters of "true", "1", "yes" and
    "not found").  [os.environ] is a finite map from names to values.  The
    logger is a list of records, oldest first.  A raised exception is a
    value of type [exn]; code that can raise returns a [result], a value or
    the exception raised. *)

From Stdlib Require Import String Ascii List Bool Arith ZArith Lia DecimalString.
From stdpp Require Import gmap strings.

Local Open Scope string_scope.
Import ListNotations.
Set Warnings "-register-all".

(** ** Python strings *)

Module PyStr.

(** Truthiness of a [str]: only the empty string is falsy. *)
Definition truthy (s : string) : bool :=
  match s with
  | EmptyString => false
  | String _ _ => true
  end.

(** Truthiness of an [Optional[str]], as returned by [os.getenv]. *)
Definition truthy_opt (o : option string) : bool :=
  match o with
  | None => false
  | Some s => truthy s
  end.

Definition is_upper (c : ascii) : bool :=
  let n := nat_of_ascii c in (65 <=? n)%nat && (n <=? 90)%nat.

Definition is_lower (c : ascii) : bool :=
  let n := nat_of_ascii c in (97 <=? n)%nat && (n <=? 122)%nat.

Definition lower_char (c : ascii) : ascii :=
  if is_upper c then ascii_of_nat (nat_of_ascii c + 32) else c.

(** [s.lower()] *)
Fixpoint lower (s : string) : string :=
  match s with
  | EmptyString => EmptyString
  | String c s' => String (lower_char c) (lower s')
  end.

(** [s.startswith(p)], written [startswith p s]. *)
Fixpoint startswith (p s : string) : bool :=
  match p, s with
  | EmptyString, _ => true
  | String a p', String b s' => Ascii.eqb a b && startswith p' s'
  | String _ _, EmptyString => false
  end.

(** [sub in s], written [contains sub s]. *)
Fixpoint contains (sub s : string) : bool :=
  startswith sub s ||
  match s with
  | EmptyString => false
  | String _ s' => contains sub s'
  end.

(** [x in (a, b, ...)] for strings. *)
Definition in_tuple (x : string) (t : list string) : bool :=
  existsb (String.eqb x) t.

(** [str(i)] for a non-negative index. *)
Definition str_of_nat (n : nat) : string :=
  NilEmpty.string_of_uint (Nat.to_uint n).

(** Equality of two characters up to the case of an ASCII letter, stated
    on the character codes: the codes agree, or both are letters and the
    codes differ by the distance between the two cases. *)
Definition char_eq_nocase (a b : ascii) : bool :=
  let x := nat_of_ascii a in
  let y := nat_of_ascii b in
  (x =? y)%nat ||
  ((is_upper a && is_lower b && (x + 32 =? y)%nat) ||
   (is_lower a && is_upper b && (y + 32 =? x)%nat)).

(** Case-insensitive comparison of two strings. *)
Fixpoint eq_nocase (s t : string) : bool :=
  match s, t with
  | EmptyString, EmptyString => true
  | String a s', String b t' => char_eq_nocase a b && eq_nocase s' t'
  | _, _ => false
  end.

(** No upper-case ASCII letter occurs in the string. *)
Fixpoint no_upper (s : string) : bool :=
  match s with
  | EmptyString => true
  | String c s' => negb (is_upper c) && no_upper s'
  end.

(** The 256 characters. *)
Definition all_ascii : list ascii := List.map ascii_of_nat (seq 0 256).

End PyStr.

(** ** The logger *)

Module Logging.

(** The levels of the [logging] module that the code uses, with their
    numeric severities. *)
Inductive level := INFO | WARNING | ERROR.

Definition levelno (l : level) : nat :=
  match l with
  | INFO => 20
  | WARNING => 30
  | ERROR => 40
  end.

End Logging.

(** ** Exceptions *)

Module Exc.

(** The exception classes the tools tell apart.  [json.JSONDecodeError]
    derives from [ValueError]; [AttributeError] is what [.get] raises on a
    value that is not a [dict]; [OtherError] stands for any unrelated
    class, by name. *)
Inductive exn_class :=
| MCPAtlassianNotFoundError
| MCPAtlassianAuthenticationError
| ValueError
| JSONDecodeError
| AttributeError
| OtherError (name : string).

(** A raised exception, an instance of [Exception]: its class, its
    rendering [str(e)], its traceback and its instance attributes.  These
    are the faults an [except Exception] clause catches; what derives from
    [BaseException] alone ([asyncio.CancelledError], [KeyboardInterrupt])
    passes through such a clause and is not modelled. *)
Record exn := {
  exn_type : exn_class;
  exn_str : string;
  exn_traceback : list string;
  exn_attrs : list (string * string)
}.

(** Modelled from the spec: the classes of [mcp_atlassian.exceptions] are
    not part of the sources at hand; the not-found and the
    authentication fault are "distinguished fault kinds", taken here as
    direct subclasses of [Exception]. *)
Definition subclass (c d : exn_class) : bool :=
  match c, d with
  | MCPAtlassianNotFoundError, MCPAtlassianNotFoundError => true
  | MCPAtlassianAuthenticationError, MCPAtlassianAuthenticationError => true
  | ValueError, ValueError => true
  | JSONDecodeError, JSONDecodeError => true
  | JSONDecodeError, ValueError => true
  | AttributeError, AttributeError => true
  | OtherError n, OtherError m => String.eqb n m
  | _, _ => false
  end.

Definition isinstance (e : exn) (c : exn_class) : bool :=
  subclass (exn_type e) c.

End Exc.

Module Log.
Import Logging Exc.

(** One record handed to the logger.  [exc_info] is set by
    [logger.exception], which attaches the exception with its traceback. *)
Record record := {
  levelname : level;
  message : string;
  exc_info : option exn
}.

Definition info (m : string) : record :=
  {| levelname := INFO; message := m; exc_info := None |}.
Definition warning (m : string) : record :=
  {| levelname := WARNING; message := m; exc_info := None |}.
Definition log (l : level) (m : string) : record :=
  {| levelname := l; message := m; exc_info := None |}.
Definition exception (m : string) (e : exn) : record :=
  {| levelname := ERROR; message := m; exc_info := Some e |}.

End Log.

(** ** [utils/environment.py] *)

Module Environment.
Import PyStr Log.

(** [os.getenv(name)] and [os.getenv(name, default)]. *)
Definition os_getenv (environ : gmap string string) (name : string)
  : option string := environ !! name.

Definition os_getenv_default (environ : gmap string string)
  (name dflt : string) : string :=
  match environ !! name with
  | Some v => v
  | None => dflt
  end.

(** [all([...])] over values of [os.getenv]. *)
Definition all (l : list (option string)) : bool := forallb truthy_opt l.

Section Resolver.

(** [utils/urls.py] is not among the sources: the test on the shape of
    the base URL is a parameter. *)
Variable is_atlassian_cloud_url : string -> bool.

(** The three parts of [get_available_services], one per service, in the
    order of the source: the flag the part computes and the lines it
    logs. *)

(** Lines 13 to 66: [confluence_is_setup]. *)
Definition confluence_part (environ : gmap string string)
  : bool * list record :=
  let getenv := os_getenv environ in
  let confluence_url := getenv "CONFLUENCE_URL" in
  if truthy_opt confluence_url then
    let is_cloud :=
      is_atlassian_cloud_url (default "" confluence_url) in
    if all [getenv "ATLASSIAN_OAUTH_CLIENT_ID";
            getenv "ATLASSIAN_OAUTH_CLIENT_SECRET";
            getenv "ATLASSIAN_OAUTH_REDIRECT_URI";
            getenv "ATLASSIAN_OAUTH_SCOPE";
            getenv "ATLASSIAN_OAUTH_CLOUD_ID"]
    then (true, [info "Using Confluence OAuth 2.0 (3LO) authentication (Cloud-only features)"])
    else if all [getenv "ATLASSIAN_OAUTH_ACCESS_TOKEN";
                 getenv "ATLASSIAN_OAUTH_CLOUD_ID"]
    then (true, [info "Using Confluence OAuth 2.0 (3LO) authentication (Cloud-only features) with provided access token"])
    else if is_cloud then
      if all [getenv "CONFLUENCE_USERNAME";
              getenv "CONFLUENCE_API_TOKEN"]
      then (true, [info "Using Confluence Cloud Basic Authentication (API Token)"])
      else (false, [])
    else
      if truthy_opt (getenv "CONFLUENCE_PERSONAL_TOKEN")
         || (truthy_opt (getenv "CONFLUENCE_USERNAME")
             && truthy_opt (getenv "CONFLUENCE_API_TOKEN"))
      then (true, [info "Using Confluence Server/Data Center authentication (PAT or Basic Auth)"])
      else (false, [])
  else if in_tuple (lower (os_getenv_default environ "ATLASSIAN_OAUTH_ENABLE" ""))
                   ["true"; "1"; "yes"]
  then (true, [info "Using Confluence minimal OAuth configuration - expecting user-provided tokens via headers"])
  else (false, []).

(** Lines 68 to 119: [jira_is_setup]. *)
Definition jira_part (environ : gmap string string)
  : bool * list record :=
  let getenv := os_getenv environ in
  let jira_url := getenv "JIRA_URL" in
  if truthy_opt jira_url then
    let is_cloud := is_atlassian_cloud_url (default "" jira_url) in
    if all [getenv "ATLASSIAN_OAUTH_CLIENT_ID";
            getenv "ATLASSIAN_OAUTH_CLIENT_SECRET";
            getenv "ATLASSIAN_OAUTH_REDIRECT_URI";
            getenv "ATLASSIAN_OAUTH_SCOPE";
            getenv "ATLASSIAN_OAUTH_CLOUD_ID"]
    then (true, [info "Using Jira OAuth 2.0 (3LO) authentication (Cloud-only features)"])
    else if all [getenv "ATLASSIAN_OAUTH_ACCESS_TOKEN";
                 getenv "ATLASSIAN_OAUTH_CLOUD_ID"]
    then (true, [info "Using Jira OAuth 2.0 (3LO) authentication (Cloud-only features) with provided access token"])
    else if is_cloud then
      if all [getenv "JIRA_USERNAME"; getenv "JIRA_API_TOKEN"]
      then (true, [info "Using Jira Cloud Basic Authentication (API Token)"])
      else (false, [])
    else
      if truthy_opt (getenv "JIRA_PERSONAL_TOKEN")
         || (truthy_opt (getenv "JIRA_USERNAME")
             && truthy_opt (getenv "JIRA_API_TOKEN"))
      then (true, [info "Using Jira Server/Data Center authentication (PAT or Basic Auth)"])
      else (false, [])
  else if in_tuple (lower (os_getenv_default environ "ATLASSIAN_OAUTH_ENABLE" ""))
                   ["true"; "1"; "yes"]
  then (true, [info "Using Jira minimal OAuth configuration - expecting user-provided tokens via headers"])
  else (false, []).

(** Lines 121 to 129: [zephyr_is_setup]. *)
Definition zephyr_part (environ : gmap string string)
  : bool * list record :=
  let getenv := os_getenv environ in
  if truthy_opt (getenv "ZEPHYR_API_TOKEN")
     && truthy_opt (getenv "ZEPHYR_BASE_URL")
  then (true, [info "Using Zephyr test management Bearer token authentication"])
  else if truthy_opt (getenv "ZEPHYR_API_TOKEN")
          && negb (truthy_opt (getenv "ZEPHYR_BASE_URL"))
  then (false, [warning "Zephyr API token found but ZEPHYR_BASE_URL is missing - Zephyr service will not be available"])
  else if truthy_opt (getenv "ZEPHYR_BASE_URL")
          && negb (truthy_opt (getenv "ZEPHYR_API_TOKEN"))
  then (false, [warning "Zephyr base URL found but ZEPHYR_API_TOKEN is missing - Zephyr service will not be available"])
  else (false, []).

Definition get_available_services (environ : gmap string string)
  : gmap string bool * list record :=
  let '(confluence_is_setup, log_confluence) := confluence_part environ in
  let '(jira_is_setup, log_jira) := jira_part environ in
  let '(zephyr_is_setup, log_zephyr) := zephyr_part environ in
  let log_not_confluence :=
    if negb confluence_is_setup
    then [info "Confluence is not configured or required environment variables are missing."]
    else [] in
  let log_not_jira :=
    if negb jira_is_setup
    then [info "Jira is not configured or required environment variables are missing."]
    else [] in
  let log_not_zephyr :=
    if negb zephyr_is_setup
    then [info "Zephyr is not configured or required environment variable (ZEPHYR_API_TOKEN) is missing."]
    else [] in
  ({[ "confluence" := confluence_is_setup;
      "jira" := jira_is_setup;
      "zephyr" := zephyr_is_setup ]},
   (log_confluence ++ log_jira ++ log_zephyr
      ++ log_not_confluence ++ log_not_jira ++ log_not_zephyr)%list).

(** *** Vocabulary of the specification *)

(** The Service Identity of the specification, with the names under
    which the code knows each service. *)
Inductive service := Confluence | Jira | Zephyr.

Definition service_key (s : service) : string :=
  match s with
  | Confluence => "confluence"
  | Jira => "jira"
  | Zephyr => "zephyr"
  end.

Definition service_name (s : service) : string :=
  match s with
  | Confluence => "Confluence"
  | Jira => "Jira"
  | Zephyr => "Zephyr"
  end.

Definition url_var (s : service) : string :=
  match s with
  | Confluence => "CONFLUENCE_URL"
  | Jira => "JIRA_URL"
  | Zephyr => "ZEPHYR_BASE_URL"
  end.

(** A variable is present when [os.getenv] gives a truthy value for it:
    it is set, and not to the empty string. *)
Definition present (environ : gmap string string) (name : string) : bool :=
  truthy_opt (os_getenv environ name).

(** The entry of the Availability Map for a service. *)
Definition availability (environ : gmap string string) (s : service)
  : option bool :=
  fst (get_available_services environ) !! service_key s.

(** The code keeps no record of the mode it selects other than the line
    it logs on the branch it takes: "Using <Service> ...".  The lines of
    that form logged for a service identify its mode. *)
Definition mode_lines (environ : gmap string string) (s : service)
  : list record :=
  List.filter
    (fun r => startswith ("Using " ++ service_name s ++ " ") (message r))
    (snd (get_available_services environ)).

Definition oauth_3lo_client_credentials (s : service) : record :=
  info ("Using " ++ service_name s
        ++ " OAuth 2.0 (3LO) authentication (Cloud-only features)").

Definition minimal_oauth_header_provided (s : service) : record :=
  info ("Using " ++ service_name s
        ++ " minimal OAuth configuration - expecting user-provided tokens via headers").

(** The warnings of the logged run. *)
Definition warnings (environ : gmap string string) : list record :=
  List.filter
    (fun r => match levelname r with Logging.WARNING => true | _ => false end)
    (snd (get_available_services environ)).

Definition zephyr_missing_url : record :=
  warning "Zephyr API token found but ZEPHYR_BASE_URL is missing - Zephyr service will not be available".

Definition zephyr_missing_token : record :=
  warning "Zephyr base URL found but ZEPHYR_API_TOKEN is missing - Zephyr service will not be available".

(** "One of the strings "true", "1", "yes" compared case-insensitively",
    on the value of [ATLASSIAN_OAUTH_ENABLE] (the empty string when it is
    unset). *)
Definition oauth_enable (environ : gmap string string) : bool :=
  existsb (eq_nocase (os_getenv_default environ "ATLASSIAN_OAUTH_ENABLE" ""))
          ["true"; "1"; "yes"].

(** The rule of the specification for a service without base URL: a
    truthy ATLASSIAN_OAUTH_ENABLE makes it usable in the minimal OAuth
    mode, any other value (and no value) leaves it unusable. *)
Definition oauth_enable_rule (environ : gmap string string) (s : service)
  : Prop :=
  (oauth_enable environ = true ->
   availability environ s = Some true
   /\ mode_lines environ s = [minimal_oauth_header_provided s])
  /\ (oauth_enable environ = false ->
      availability environ s = Some false).

(** *** More vocabulary: the other modes and the variables a part reads *)

Definition username_var (s : service) : string :=
  match s with
  | Confluence => "CONFLUENCE_USERNAME"
  | Jira => "JIRA_USERNAME"
  | Zephyr => ""
  end.

Definition api_token_var (s : service) : string :=
  match s with
  | Confluence => "CONFLUENCE_API_TOKEN"
  | Jira => "JIRA_API_TOKEN"
  | Zephyr => "ZEPHYR_API_TOKEN"
  end.

Definition personal_token_var (s : service) : string :=
  match s with
  | Confluence => "CONFLUENCE_PERSONAL_TOKEN"
  | Jira => "JIRA_PERSONAL_TOKEN"
  | Zephyr => ""
  end.

(** The value of the base URL of a service, the empty string when unset. *)
Definition base_url (environ : gmap string string) (s : service) : string :=
  default "" (os_getenv environ (url_var s)).

(** The first test of a part with a base URL: the five OAuth
    client-credential variables. *)
Definition client_credentials (environ : gmap string string) : bool :=
  all [os_getenv environ "ATLASSIAN_OAUTH_CLIENT_ID";
       os_getenv environ "ATLASSIAN_OAUTH_CLIENT_SECRET";
       os_getenv environ "ATLASSIAN_OAUTH_REDIRECT_URI";
       os_getenv environ "ATLASSIAN_OAUTH_SCOPE";
       os_getenv environ "ATLASSIAN_OAUTH_CLOUD_ID"].

(** The second test: an access token with the cloud id. *)
Definition provided_access_token (environ : gmap string string) : bool :=
  all [os_getenv environ "ATLASSIAN_OAUTH_ACCESS_TOKEN";
       os_getenv environ "ATLASSIAN_OAUTH_CLOUD_ID"].

Definition oauth_3lo_provided_access_token (s : service) : record :=
  info ("Using " ++ service_name s
        ++ " OAuth 2.0 (3LO) authentication (Cloud-only features) with provided access token").

Definition cloud_basic_token (s : service) : record :=
  info ("Using " ++ service_name s
        ++ " Cloud Basic Authentication (API Token)").

Definition server_pat_or_basic (s : service) : record :=
  info ("Using " ++ service_name s
        ++ " Server/Data Center authentication (PAT or Basic Auth)").

(** The closing line logged for a service that is not set up. *)
Definition not_configured (s : service) : record :=
  match s with
  | Confluence =>
      info "Confluence is not configured or required environment variables are missing."
  | Jira =>
      info "Jira is not configured or required environment variables are missing."
  | Zephyr =>
      info "Zephyr is not configured or required environment variable (ZEPHYR_API_TOKEN) is missing."
  end.

(** The variables the part of the issue tracker or of the wiki reads once
    it has a base URL. *)
Definition credential_variables (s : service) : list string :=
  [url_var s; username_var s; api_token_var s; personal_token_var s;
   "ATLASSIAN_OAUTH_CLIENT_ID"; "ATLASSIAN_OAUTH_CLIENT_SECRET";
   "ATLASSIAN_OAUTH_REDIRECT_URI"; "ATLASSIAN_OAUTH_SCOPE";
   "ATLASSIAN_OAUTH_CLOUD_ID"; "ATLASSIAN_OAUTH_ACCESS_TOKEN"].

(** The variables the part of a service reads. *)
Definition variables_read (s : service) : list string :=
  match s with
  | Zephyr => ["ZEPHYR_API_TOKEN"; "ZEPHYR_BASE_URL"]
  | _ => (credential_variables s ++ ["ATLASSIAN_OAUTH_ENABLE"])%list
  end.

(** Two environments give the same values to the variables of a list. *)
Definition agree_on (names : list string) (e1 e2 : gmap string string) : Prop :=
  Forall (fun name => e1 !! name = e2 !! name) names.

(** The lines logged about one service.  Every line of the run names its
    service at its start, as "Using <Service> ..." (the mode) or as
    "<Service> ..." (the two warnings of test management and the closing
    line of a service that is not set up). *)
Definition lines_about (environ : gmap string string) (s : service)
  : list record :=
  List.filter
    (fun r => startswith ("Using " ++ service_name s ++ " ") (message r)
              || startswith (service_name s ++ " ") (message r))
    (snd (get_available_services environ)).

(** The part of a service. *)
Definition service_part (environ : gmap string string) (s : service)
  : bool * list record :=
  match s with
  | Confluence => confluence_part environ
  | Jira => jira_part environ
  | Zephyr => zephyr_part environ
  end.

End Resolver.

End Environment.

(** ** JSON values *)

Module Json.

(** What [json.loads] produces and [json.dumps] consumes.  A [dict] keeps
    its items in insertion order.  Floats do not occur in the envelopes of
    the tools and are left out. *)
Inductive json :=
| JNull
| JBool (b : bool)
| JInt (z : Z)
| JStr (s : string)
| JList (l : list json)
| JDict (d : list (string * json)).

Definition dict := list (string * json).

(** [d[key]] when present.  The keys of a [dict] are distinct; on a list
    of items the first item with the key is taken. *)
Fixpoint dict_get (d : dict) (key : string) : option json :=
  match d with
  | [] => None
  | (k, v) :: d' => if String.eqb k key then Some v else dict_get d' key
  end.

(** [type(v).__name__] *)
Definition type_name (v : json) : string :=
  match v with
  | JNull => "NoneType"
  | JBool _ => "bool"
  | JInt _ => "int"
  | JStr _ => "str"
  | JList _ => "list"
  | JDict _ => "dict"
  end.

(** An [Optional[str]] argument as a value. *)
Definition of_option (o : option string) : json :=
  match o with
  | Some s => JStr s
  | None => JNull
  end.

(** *** A decoder for concrete runs

    [json.loads] is the standard library's and enters the tools as a
    parameter.  For runs on concrete text this decoder reads the part of
    JSON without escapes, fractions and exponents; anything else is
    reported as undecodable. *)

Definition is_space (c : ascii) : bool :=
  match nat_of_ascii c with
  | 32 | 9 | 10 | 13 => true
  | _ => false
  end.

Definition is_digit (c : ascii) : bool :=
  let n := nat_of_ascii c in (48 <=? n)%nat && (n <=? 57)%nat.

Fixpoint skip_space (s : string) : string :=
  match s with
  | String c s' => if is_space c then skip_space s' else s
  | EmptyString => s
  end.

(** The decoder is not [json.loads] outside that part: it takes a number
    with leading zeros, and it keeps every item of an object with a
    repeated key where Python keeps the last.  The texts of the runs below
    have neither. *)

(** The double quote, character 34. *)
Definition quote : ascii := Ascii false true false false false true false false.

(** A text in which the double quotes are written as single quotes, with
    the double quotes put back. *)
Fixpoint requote (s : string) : string :=
  match s with
  | EmptyString => EmptyString
  | String c s' =>
      String (if Ascii.eqb c "'" then quote else c) (requote s')
  end.

(** The characters up to the closing quote, and what follows it. *)
Fixpoint read_string (s : string) : option (string * string) :=
  match s with
  | EmptyString => None
  | String c s' =>
      if Ascii.eqb c quote then Some (EmptyString, s')
      else if Ascii.eqb c "\"%char then None
      else match read_string s' with
           | Some (body, rest) => Some (String c body, rest)
           | None => None
           end
  end.

Fixpoint read_digits (acc : Z) (s : string) : Z * string :=
  match s with
  | String c s' =>
      if is_digit c
      then read_digits (10 * acc + Z.of_nat (nat_of_ascii c - 48)) s'
      else (acc, s)
  | EmptyString => (acc, s)
  end.

Definition starts_digit (s : string) : bool :=
  match s with
  | String c _ => is_digit c
  | EmptyString => false
  end.

Definition strip_prefix (p s : string) : option string :=
  if PyStr.startswith p s
  then Some (String.substring (String.length p)
                              (String.length s - String.length p) s)
  else None.

Fixpoint read_value (fuel : nat) (s : string) : option (json * string) :=
  match fuel with
  | O => None
  | S fuel' =>
      let read_items :=
        fix read_items (n : nat) (s : string) : option (list json * string) :=
          match n with
          | O => None
          | S n' =>
              match read_value fuel' s with
              | Some (v, rest) =>
                  match skip_space rest with
                  | String "," rest' =>
                      match read_items n' rest' with
                      | Some (vs, rest'') => Some (v :: vs, rest'')
                      | None => None
                      end
                  | String "]" rest' => Some ([v], rest')
                  | _ => None
                  end
              | None => None
              end
          end in
      let read_members :=
        fix read_members (n : nat) (s : string) : option (dict * string) :=
          match n with
          | O => None
          | S n' =>
              match skip_space s with
              | String (Ascii false true false false false true false false) s1 =>
                  match read_string s1 with
                  | Some (k, s2) =>
                      match skip_space s2 with
                      | String ":" s3 =>
                          match read_value fuel' s3 with
                          | Some (v, rest) =>
                              match skip_space rest with
                              | String "," rest' =>
                                  match read_members n' rest' with
                                  | Some (kvs, rest'') => Some ((k, v) :: kvs, rest'')
                                  | None => None
                                  end
                              | String "}" rest' => Some ([(k, v)], rest')
                              | _ => None
                              end
                          | None => None
                          end
                      | _ => None
                      end
                  | None => None
                  end
              | _ => None
              end
          end in
      match skip_space s with
      | String (Ascii false true false false false true false false) s' =>
          match read_string s' with
          | Some (body, rest) => Some (JStr body, rest)
          | None => None
          end
      | String "[" s' =>
          match skip_space s' with
          | String "]" rest => Some (JList [], rest)
          | _ =>
              match read_items fuel' s' with
              | Some (vs, rest) => Some (JList vs, rest)
              | None => None
              end
          end
      | String "{" s' =>
          match skip_space s' with
          | String "}" rest => Some (JDict [], rest)
          | _ =>
              match read_members fuel' s' with
              | Some (kvs, rest) => Some (JDict kvs, rest)
              | None => None
              end
          end
      | String "-" s' =>
          if starts_digit s'
          then let '(z, rest) := read_digits 0 s' in Some (JInt (- z), rest)
          else None
      | String c s' as t =>
          if is_digit c
          then let '(z, rest) := read_digits 0 t in Some (JInt z, rest)
          else match strip_prefix "null" t with
               | Some rest => Some (JNull, rest)
               | None =>
                   match strip_prefix "true" t with
                   | Some rest => Some (JBool true, rest)
                   | None =>
                       match strip_prefix "false" t with
                       | Some rest => Some (JBool false, rest)
                       | None => None
                       end
                   end
               end
      | EmptyString => None
      end
  end.

(** The whole text must be one value, up to surrounding white space. *)
Definition decode (s : string) : option json :=
  match read_value (S (String.length s)) s with
  | Some (v, rest) =>
      match skip_space rest with
      | EmptyString => Some v
      | _ => None
      end
  | None => None
  end.

End Json.

(** ** [servers/zephyr.py] *)

Module Zephyr.
Import PyStr Logging Exc Log Json.

(** Every tool ends in [return json.dumps(response_data, indent=2,
    ensure_ascii=False)]; a tool is modelled up to that serialization and
    returns [response_data], the envelope. *)

(** The outcome of code that can raise. *)
Inductive result (A : Type) :=
| Ok (a : A)
| Raise (e : exn).
Arguments Ok {A} a.
Arguments Raise {A} e.

(** What the tools take from outside [servers/zephyr.py].  First the
    types: the domain objects of the Zephyr client ([entity]) and the
    request model [TestStepRequest] of [models/zephyr.py]. *)
Class Domain := {
  entity : Type;
  TestStepRequest : Type
}.

(** Then the operations: [to_simplified_dict] of the domain objects, the
    standard library's [json.loads], and the validating constructor of
    [TestStepRequest], called with the keywords [step], [data] and
    [result]. *)
Class Collaborators `{Domain} := {
  to_simplified_dict : entity -> json;
  json_loads : string -> result json;
  TestStepRequest_init : json -> json -> json -> result TestStepRequest
}.

Section Tools.
Context `{Domain}.

(** A call that reached the Zephyr client, with its arguments. *)
Inductive backend_call :=
| Call_get_testcase (test_case_key : string) (fields : option string)
| Call_create_testcase (data : json)
| Call_update_testcase (test_case_key : string) (data : json)
| Call_delete_testcase (test_case_key : string)
| Call_search_testcases (query fields : option string) (start_at max_results : Z)
| Call_get_testplan (test_plan_key : string) (fields : option string)
| Call_create_testplan (data : json)
| Call_search_testplans (query fields : option string) (start_at max_results : Z)
| Call_get_testrun (test_run_key : string) (fields : option string)
| Call_create_testrun (data : json)
| Call_search_testruns (query fields : option string) (start_at max_results : Z)
| Call_create_testresult (data : json)
| Call_get_testcase_latest_result (test_case_key : string)
| Call_get_testrun_results (test_run_key : string)
| Call_get_test_steps (issue_id project_id : string)
| Call_add_test_step (issue_id project_id : string) (step_request : TestStepRequest)
| Call_add_multiple_test_steps (issue_id project_id : string)
    (step_requests : list TestStepRequest).

(** The Zephyr client (the backend collaborator): what each of its
    methods answers, a value or a raised fault. *)
Record ZephyrFetcher := {
  zf_get_testcase : string -> option string -> result entity;
  zf_create_testcase : json -> result json;
  zf_update_testcase : string -> json -> result unit;
  zf_delete_testcase : string -> result unit;
  zf_search_testcases :
    option string -> option string -> Z -> Z -> result (list entity);
  zf_get_testplan : string -> option string -> result entity;
  zf_create_testplan : json -> result json;
  zf_search_testplans :
    option string -> option string -> Z -> Z -> result (list entity);
  zf_get_testrun : string -> option string -> result entity;
  zf_create_testrun : json -> result json;
  zf_search_testruns :
    option string -> option string -> Z -> Z -> result (list entity);
  zf_create_testresult : json -> result json;
  zf_get_testcase_latest_result : string -> result (option entity);
  zf_get_testrun_results : string -> result (list entity);
  zf_get_test_steps : string -> string -> result entity;
  zf_add_test_step : string -> string -> TestStepRequest -> result entity;
  zf_add_multiple_test_steps :
    string -> string -> list TestStepRequest -> result (list entity)
}.

(** The request context: the process-wide Write-Access Flag and what the
    service registry yields for the Zephyr client. *)
Record Context := {
  write_access_flag : bool;
  zephyr_fetcher : result ZephyrFetcher
}.

(** What a tool invocation can change: the calls received by the
    backend and the operational log, both oldest first. *)
Record world := {
  backend_calls : list backend_call;
  logged : list record
}.

(** Computations that read and extend the world and may raise. *)
Definition M (A : Type) : Type := world -> result A * world.

Definition ret {A} (a : A) : M A := fun w => (Ok a, w).

Definition raise {A} (e : exn) : M A := fun w => (Raise e, w).

Definition bind {A B} (m : M A) (f : A -> M B) : M B :=
  fun w =>
    match m w with
    | (Ok a, w') => f a w'
    | (Raise e, w') => (Raise e, w')
    end.

(** [try: m  except Exception as e: handler e] *)
Definition try_except {A} (m : M A) (handler : exn -> M A) : M A :=
  fun w =>
    match m w with
    | (Ok a, w') => (Ok a, w')
    | (Raise e, w') => handler e w'
    end.

Definition lift {A} (r : result A) : M A := fun w => (r, w).

(** A method call on the client: the backend receives the call and
    answers. *)
Definition call {A} (c : backend_call) (answer : result A) : M A :=
  fun w =>
    (answer,
     {| backend_calls := backend_calls w ++ [c]; logged := logged w |}).

Definition emit (r : record) : M unit :=
  fun w =>
    (Ok tt,
     {| backend_calls := backend_calls w; logged := logged w ++ [r] |}).

Definition logger_exception (msg : string) (e : exn) : M unit :=
  emit (exception msg e).

Definition logger_log (l : level) (msg : string) : M unit :=
  emit (log l msg).

Definition logger_warning (msg : string) : M unit :=
  emit (warning msg).

End Tools.

Declare Scope py_scope.
Delimit Scope py_scope with py.
Notation "x <- m ;; k" := (bind m (fun x => k))
  (at level 100, m at level 99, right associativity) : py_scope.
Notation "m ;;; k" := (bind m (fun _ => k))
  (at level 100, right associativity) : py_scope.
Local Open Scope py_scope.

Section ToolDefinitions.
Context `{Collaborators}.

(** Modelled from the spec: [servers/dependencies.py] is not among the
    sources.  The service registry yields the authenticated client for
    the service, or raises when there is none. *)
Definition get_zephyr_fetcher (ctx : Context) : M ZephyrFetcher :=
  lift (zephyr_fetcher ctx).

Definition read_only_error : string :=
  "Write access is disabled: the server is running in read-only mode.".

(** Modelled from the spec: [utils/decorators.py] is not among the
    sources.  The Write-Access Gate consults the flag before the wrapped
    operation runs; if it is false the operation never executes and a
    result with [success = false] and an error indicating read-only
    mode is returned immediately (a denial is an expected fault, logged
    below error severity); if it is true the wrapped operation executes
    and its outcome is passed on unchanged. *)
Definition check_write_access (func : Context -> M dict) (ctx : Context)
  : M dict :=
  if write_access_flag ctx then func ctx
  else
    logger_warning "Attempted to call a write tool in read-only mode." ;;;
    ret [("success", JBool false); ("error", JStr read_only_error)].

(** [[x.to_simplified_dict() for x in xs]] *)
Definition simplified (xs : list entity) : list json :=
  List.map to_simplified_dict xs.

Definition len {A} (l : list A) : json := JInt (Z.of_nat (List.length l)).

(** *** Test case tools *)

(** The [try] block of [get_testcase]. *)
Definition get_testcase_try (ctx : Context) (test_case_key : string)
  (fields : option string) : M dict :=
  zephyr <- get_zephyr_fetcher ctx ;;
  test_case <- call (Call_get_testcase test_case_key fields)
                    (zf_get_testcase zephyr test_case_key fields) ;;
  ret [("success", JBool true);
       ("test_case", to_simplified_dict test_case)].

Definition get_testcase (ctx : Context) (test_case_key : string)
  (fields : option string) : M dict :=
  try_except
    (get_testcase_try ctx test_case_key fields)
    (fun e =>
       if isinstance e MCPAtlassianNotFoundError then
         ret [("success", JBool false);
              ("error", JStr ("Test case not found: " ++ exn_str e))]
       else
         logger_exception ("Error getting test case " ++ test_case_key) e ;;;
         ret [("success", JBool false);
              ("error", JStr ("Failed to get test case: " ++ exn_str e))]).

(** The [try] block of [create_testcase]. *)
Definition create_testcase_try (testcase_data : string) (ctx : Context)
  : M dict :=
  zephyr <- get_zephyr_fetcher ctx ;;
  data <- lift (json_loads testcase_data) ;;
  test_case_key <- call (Call_create_testcase data)
                        (zf_create_testcase zephyr data) ;;
  ret [("success", JBool true); ("test_case_key", test_case_key)].

Definition create_testcase__wrapped (testcase_data : string) (ctx : Context)
  : M dict :=
  try_except
    (create_testcase_try testcase_data ctx)
    (fun e =>
       logger_exception "Error creating test case" e ;;;
       ret [("success", JBool false);
            ("error", JStr ("Failed to create test case: " ++ exn_str e))]).

Definition create_testcase (ctx : Context) (testcase_data : string)
  : M dict :=
  check_write_access (create_testcase__wrapped testcase_data) ctx.

(** The [try] block of [update_testcase]. *)
Definition update_testcase_try (test_case_key testcase_data : string)
  (ctx : Context) : M dict :=
  zephyr <- get_zephyr_fetcher ctx ;;
  data <- lift (json_loads testcase_data) ;;
  _ <- call (Call_update_testcase test_case_key data)
            (zf_update_testcase zephyr test_case_key data) ;;
  ret [("success", JBool true);
       ("message", JStr ("Test case " ++ test_case_key ++ " updated"))].

Definition update_testcase__wrapped (test_case_key testcase_data : string)
  (ctx : Context) : M dict :=
  try_except
    (update_testcase_try test_case_key testcase_data ctx)
    (fun e =>
       if isinstance e MCPAtlassianNotFoundError then
         ret [("success", JBool false);
              ("error", JStr ("Test case not found: " ++ exn_str e))]
       else
         logger_exception ("Error updating test case " ++ test_case_key) e ;;;
         ret [("success", JBool false);
              ("error", JStr ("Failed to update test case: " ++ exn_str e))]).

Definition update_testcase (ctx : Context)
  (test_case_key testcase_data : string) : M dict :=
  check_write_access (update_testcase__wrapped test_case_key testcase_data) ctx.

(** The [try] block of [delete_testcase]. *)
Definition delete_testcase_try (test_case_key : string) (ctx : Context)
  : M dict :=
  zephyr <- get_zephyr_fetcher ctx ;;
  _ <- call (Call_delete_testcase test_case_key)
            (zf_delete_testcase zephyr test_case_key) ;;
  ret [("success", JBool true);
       ("message", JStr ("Test case " ++ test_case_key ++ " deleted"))].

Definition delete_testcase__wrapped (test_case_key : string) (ctx : Context)
  : M dict :=
  try_except
    (delete_testcase_try test_case_key ctx)
    (fun e =>
       if isinstance e MCPAtlassianNotFoundError then
         ret [("success", JBool false);
              ("error", JStr ("Test case not found: " ++ exn_str e))]
       else
         logger_exception ("Error deleting test case " ++ test_case_key) e ;;;
         ret [("success", JBool false);
              ("error", JStr ("Failed to delete test case: " ++ exn_str e))]).

Definition delete_testcase (ctx : Context) (test_case_key : string)
  : M dict :=
  check_write_access (delete_testcase__wrapped test_case_key) ctx.

(** The [try] block of [search_testcases]. *)
Definition search_testcases_try (ctx : Context) (query fields : option string)
  (start_at max_results : Z) : M dict :=
  zephyr <- get_zephyr_fetcher ctx ;;
  test_cases <- call (Call_search_testcases query fields start_at max_results)
                     (zf_search_testcases zephyr query fields start_at max_results) ;;
  let results := simplified test_cases in
  ret [("success", JBool true); ("test_cases", JList results);
       ("count", len results)].

Definition search_testcases (ctx : Context) (query fields : option string)
  (start_at max_results : Z) : M dict :=
  try_except
    (search_testcases_try ctx query fields start_at max_results)
    (fun e =>
       logger_exception "Error searching test cases" e ;;;
       ret [("success", JBool false);
            ("error", JStr ("Failed to search test cases: " ++ exn_str e))]).

(** *** Test plan tools *)

(** The [try] block of [get_testplan]. *)
Definition get_testplan_try (ctx : Context) (test_plan_key : string)
  (fields : option string) : M dict :=
  zephyr <- get_zephyr_fetcher ctx ;;
  test_plan <- call (Call_get_testplan test_plan_key fields)
                    (zf_get_testplan zephyr test_plan_key fields) ;;
  ret [("success", JBool true);
       ("test_plan", to_simplified_dict test_plan)].

Definition get_testplan (ctx : Context) (test_plan_key : string)
  (fields : option string) : M dict :=
  try_except
    (get_testplan_try ctx test_plan_key fields)
    (fun e =>
       if isinstance e MCPAtlassianNotFoundError then
         ret [("success", JBool false);
              ("error", JStr ("Test plan not found: " ++ exn_str e))]
       else
         logger_exception ("Error getting test plan " ++ test_plan_key) e ;;;
         ret [("success", JBool false);
              ("error", JStr ("Failed to get test plan: " ++ exn_str e))]).

(** The [try] block of [create_testplan]. *)
Definition create_testplan_try (testplan_data : string) (ctx : Context)
  : M dict :=
  zephyr <- get_zephyr_fetcher ctx ;;
  data <- lift (json_loads testplan_data) ;;
  test_plan_key <- call (Call_create_testplan data)
                        (zf_create_testplan zephyr data) ;;
  ret [("success", JBool true); ("test_plan_key", test_plan_key)].

Definition create_testplan__wrapped (testplan_data : string) (ctx : Context)
  : M dict :=
  try_except
    (create_testplan_try testplan_data ctx)
    (fun e =>
       logger_exception "Error creating test plan" e ;;;
       ret [("success", JBool false);
            ("error", JStr ("Failed to create test plan: " ++ exn_str e))]).

Definition create_testplan (ctx : Context) (testplan_data : string)
  : M dict :=
  check_write_access (create_testplan__wrapped testplan_data) ctx.

(** The [try] block of [search_testplans]. *)
Definition search_testplans_try (ctx : Context) (query fields : option string)
  (start_at max_results : Z) : M dict :=
  zephyr <- get_zephyr_fetcher ctx ;;
  test_plans <- call (Call_search_testplans query fields start_at max_results)
                     (zf_search_testplans zephyr query fields start_at max_results) ;;
  let results := simplified test_plans in
  ret [("success", JBool true); ("test_plans", JList results);
       ("count", len results)].

Definition search_testplans (ctx : Context) (query fields : option string)
  (start_at max_results : Z) : M dict :=
  try_except
    (search_testplans_try ctx query fields start_at max_results)
    (fun e =>
       logger_exception "Error searching test plans" e ;;;
       ret [("success", JBool false);
            ("error", JStr ("Failed to search test plans: " ++ exn_str e))]).

(** *** Test run tools *)

(** The [try] block of [get_testrun]. *)
Definition get_testrun_try (ctx : Context) (test_run_key : string)
  (fields : option string) : M dict :=
  zephyr <- get_zephyr_fetcher ctx ;;
  test_run <- call (Call_get_testrun test_run_key fields)
                   (zf_get_testrun zephyr test_run_key fields) ;;
  ret [("success", JBool true);
       ("test_run", to_simplified_dict test_run)].

Definition get_testrun (ctx : Context) (test_run_key : string)
  (fields : option string) : M dict :=
  try_except
    (get_testrun_try ctx test_run_key fields)
    (fun e =>
       if isinstance e MCPAtlassianNotFoundError then
         ret [("success", JBool false);
              ("error", JStr ("Test run not found: " ++ exn_str e))]
       else
         logger_exception ("Error getting test run " ++ test_run_key) e ;;;
         ret [("success", JBool false);
              ("error", JStr ("Failed to get test run: " ++ exn_str e))]).

(** The [try] block of [create_testrun]. *)
Definition create_testrun_try (testrun_data : string) (ctx : Context)
  : M dict :=
  zephyr <- get_zephyr_fetcher ctx ;;
  data <- lift (json_loads testrun_data) ;;
  test_run_key <- call (Call_create_testrun data)
                       (zf_create_testrun zephyr data) ;;
  ret [("success", JBool true); ("test_run_key", test_run_key)].

Definition create_testrun__wrapped (testrun_data : string) (ctx : Context)
  : M dict :=
  try_except
    (create_testrun_try testrun_data ctx)
    (fun e =>
       logger_exception "Error creating test run" e ;;;
       ret [("success", JBool false);
            ("error", JStr ("Failed to create test run: " ++ exn_str e))]).

Definition create_testrun (ctx : Context) (testrun_data : string)
  : M dict :=
  check_write_access (create_testrun__wrapped testrun_data) ctx.

(** The [try] block of [search_testruns]. *)
Definition search_testruns_try (ctx : Context) (query fields : option string)
  (start_at max_results : Z) : M dict :=
  zephyr <- get_zephyr_fetcher ctx ;;
  test_runs <- call (Call_search_testruns query fields start_at max_results)
                    (zf_search_testruns zephyr query fields start_at max_results) ;;
  let results := simplified test_runs in
  ret [("success", JBool true); ("test_runs", JList results);
       ("count", len results)].

Definition search_testruns (ctx : Context) (query fields : option string)
  (start_at max_results : Z) : M dict :=
  try_except
    (search_testruns_try ctx query fields start_at max_results)
    (fun e =>
       logger_exception "Error searching test runs" e ;;;
       ret [("success", JBool false);
            ("error", JStr ("Failed to search test runs: " ++ exn_str e))]).

(** *** Test result tools *)

(** The [try] block of [create_testresult]. *)
Definition create_testresult_try (testresult_data : string)
  (ctx : Context) : M dict :=
  zephyr <- get_zephyr_fetcher ctx ;;
  data <- lift (json_loads testresult_data) ;;
  test_result_id <- call (Call_create_testresult data)
                         (zf_create_testresult zephyr data) ;;
  ret [("success", JBool true); ("test_result_id", test_result_id)].

Definition create_testresult__wrapped (testresult_data : string)
  (ctx : Context) : M dict :=
  try_except
    (create_testresult_try testresult_data ctx)
    (fun e =>
       logger_exception "Error creating test result" e ;;;
       ret [("success", JBool false);
            ("error", JStr ("Failed to create test result: " ++ exn_str e))]).

Definition create_testresult (ctx : Context) (testresult_data : string)
  : M dict :=
  check_write_access (create_testresult__wrapped testresult_data) ctx.

(** The [try] block of [get_testcase_latest_result]. *)
Definition get_testcase_latest_result_try (ctx : Context)
  (test_case_key : string) : M dict :=
  zephyr <- get_zephyr_fetcher ctx ;;
  test_result <- call (Call_get_testcase_latest_result test_case_key)
                      (zf_get_testcase_latest_result zephyr test_case_key) ;;
  match test_result with
  | Some r =>
      ret [("success", JBool true);
           ("test_result", to_simplified_dict r)]
  | None =>
      ret [("success", JBool true); ("test_result", JNull);
           ("message", JStr "No results found")]
  end.

Definition get_testcase_latest_result (ctx : Context)
  (test_case_key : string) : M dict :=
  try_except
    (get_testcase_latest_result_try ctx test_case_key)
    (fun e =>
       logger_exception
         ("Error getting latest result for test case " ++ test_case_key) e ;;;
       ret [("success", JBool false);
            ("error", JStr ("Failed to get latest test result: " ++ exn_str e))]).

(** The [try] block of [get_testrun_results]. *)
Definition get_testrun_results_try (ctx : Context) (test_run_key : string)
  : M dict :=
  zephyr <- get_zephyr_fetcher ctx ;;
  test_results <- call (Call_get_testrun_results test_run_key)
                       (zf_get_testrun_results zephyr test_run_key) ;;
  let results := simplified test_results in
  ret [("success", JBool true); ("test_results", JList results);
       ("count", len results)].

Definition get_testrun_results (ctx : Context) (test_run_key : string)
  : M dict :=
  try_except
    (get_testrun_results_try ctx test_run_key)
    (fun e =>
       if isinstance e MCPAtlassianNotFoundError then
         ret [("success", JBool false);
              ("error", JStr ("Test run not found: " ++ exn_str e))]
       else
         logger_exception
           ("Error getting test results for test run " ++ test_run_key) e ;;;
         ret [("success", JBool false);
              ("error", JStr ("Failed to get test run results: " ++ exn_str e))]).

(** *** Original test step tools *)

(** The [try] block of [get_test_steps]. *)
Definition get_test_steps_try (ctx : Context) (issue_id project_id : string)
  : M dict :=
  zephyr <- get_zephyr_fetcher ctx ;;
  test_steps <- call (Call_get_test_steps issue_id project_id)
                     (zf_get_test_steps zephyr issue_id project_id) ;;
  let result := to_simplified_dict test_steps in
  ret [("success", JBool true); ("test_steps", result)].

Definition get_test_steps (ctx : Context) (issue_id project_id : string)
  : M dict :=
  try_except
    (get_test_steps_try ctx issue_id project_id)
    (fun e =>
       classified <-
         (if isinstance e ValueError
             && contains "not found" (lower (exn_str e))
          then ret (WARNING, exn_str e)
          else if isinstance e MCPAtlassianAuthenticationError
          then ret (ERROR, "Authentication/Permission Error: " ++ exn_str e)
          else
            logger_exception
              ("Unexpected error in get_test_steps for issue '"
               ++ issue_id ++ "':") e ;;;
            ret (ERROR, "An unexpected error occurred while fetching test steps.")) ;;
       let '(log_level, error_message) := classified in
       let error_result :=
         [("success", JBool false);
          ("error", JStr (exn_str e));
          ("issue_id", JStr issue_id);
          ("project_id", JStr project_id)] in
       logger_log log_level
         ("get_test_steps failed for issue '" ++ issue_id ++ "': "
          ++ error_message) ;;;
       ret error_result).

(** The [try] block of [add_test_step]. *)
Definition add_test_step_try (issue_id project_id step : string)
  (data result : option string) (ctx : Context) : M dict :=
  zephyr <- get_zephyr_fetcher ctx ;;
  step_request <- lift (TestStepRequest_init
                          (JStr step) (of_option data) (of_option result)) ;;
  test_step <- call (Call_add_test_step issue_id project_id step_request)
                    (zf_add_test_step zephyr issue_id project_id step_request) ;;
  let result_data := to_simplified_dict test_step in
  ret [("success", JBool true);
       ("test_step", result_data);
       ("issue_id", JStr issue_id);
       ("project_id", JStr project_id)].

Definition add_test_step__wrapped (issue_id project_id step : string)
  (data result : option string) (ctx : Context) : M dict :=
  try_except
    (add_test_step_try issue_id project_id step data result ctx)
    (fun e =>
       classified <-
         (if isinstance e MCPAtlassianAuthenticationError
          then ret (ERROR, "Authentication/Permission Error: " ++ exn_str e)
          else
            logger_exception
              ("Unexpected error in add_test_step for issue '"
               ++ issue_id ++ "':") e ;;;
            ret (ERROR, "An unexpected error occurred while adding the test step.")) ;;
       let '(log_level, error_message) := classified in
       let error_result :=
         [("success", JBool false);
          ("error", JStr (exn_str e));
          ("issue_id", JStr issue_id);
          ("project_id", JStr project_id)] in
       logger_log log_level
         ("add_test_step failed for issue '" ++ issue_id ++ "': "
          ++ error_message) ;;;
       ret error_result).

Definition add_test_step (ctx : Context) (issue_id project_id step : string)
  (data result : option string) : M dict :=
  check_write_access
    (add_test_step__wrapped issue_id project_id step data result) ctx.

(** [step_data.get(key, default)]: a [dict] answers, any other value has
    no attribute [get]. *)
Definition step_data_get (step_data : json) (key : string) (dflt : json)
  : result json :=
  match step_data with
  | JDict d =>
      Ok (match dict_get d key with
          | Some v => v
          | None => dflt
          end)
  | _ =>
      Raise {| exn_type := AttributeError;
               exn_str := "'" ++ type_name step_data
                          ++ "' object has no attribute 'get'";
               exn_traceback := [];
               exn_attrs := [] |}
  end.

(** The [try] block inside the loop of [add_multiple_test_steps]: the
    request built from one element, with the three [.get] evaluated in the
    order of the keywords. *)
Definition build_step_request (step_data : json) : result TestStepRequest :=
  match step_data_get step_data "step" (JStr "") with
  | Raise e => Raise e
  | Ok step =>
      match step_data_get step_data "data" JNull with
      | Raise e => Raise e
      | Ok data =>
          match step_data_get step_data "result" JNull with
          | Raise e => Raise e
          | Ok result => TestStepRequest_init step data result
          end
      end
  end.

(** The [for i, step_data in enumerate(steps_data)] loop of
    [add_multiple_test_steps], from index [i] on: the requests built, or
    the index and the fault of the first element that fails. *)
Fixpoint build_step_requests (i : nat) (steps_data : list json)
  (step_requests : list TestStepRequest)
  : (nat * exn) + list TestStepRequest :=
  match steps_data with
  | [] => inr step_requests
  | step_data :: steps_data' =>
      match build_step_request step_data with
      | Ok step_request =>
          build_step_requests (S i) steps_data'
                              (step_requests ++ [step_request])%list
      | Raise e => inl (i, e)
      end
  end.

(** The [try] block of [add_multiple_test_steps]. *)
Definition add_multiple_test_steps_try
  (issue_id project_id steps : string) (ctx : Context) : M dict :=
  zephyr <- get_zephyr_fetcher ctx ;;
  match json_loads steps with
  | Raise e =>
      if isinstance e JSONDecodeError then
        ret [("success", JBool false);
             ("error", JStr ("Invalid JSON format for steps: " ++ exn_str e));
             ("issue_id", JStr issue_id);
             ("project_id", JStr project_id)]
      else raise e
  | Ok steps_data =>
      match steps_data with
      | JList items =>
          match build_step_requests 0 items [] with
          | inl (i, e) =>
              ret [("success", JBool false);
                   ("error", JStr ("Invalid step data at index "
                                   ++ str_of_nat i ++ ": " ++ exn_str e));
                   ("issue_id", JStr issue_id);
                   ("project_id", JStr project_id)]
          | inr step_requests =>
              created_steps <-
                call (Call_add_multiple_test_steps
                        issue_id project_id step_requests)
                     (zf_add_multiple_test_steps
                        zephyr issue_id project_id step_requests) ;;
              let result_data := simplified created_steps in
              ret [("success", JBool true);
                   ("test_steps", JList result_data);
                   ("total_requested", len step_requests);
                   ("total_created", len created_steps);
                   ("issue_id", JStr issue_id);
                   ("project_id", JStr project_id)]
          end
      | _ =>
          ret [("success", JBool false);
               ("error", JStr "Steps must be a JSON array");
               ("issue_id", JStr issue_id);
               ("project_id", JStr project_id)]
      end
  end.

Definition add_multiple_test_steps__wrapped
  (issue_id project_id steps : string) (ctx : Context) : M dict :=
  try_except
    (add_multiple_test_steps_try issue_id project_id steps ctx)
    (fun e =>
       classified <-
         (if isinstance e MCPAtlassianAuthenticationError
          then ret (ERROR, "Authentication/Permission Error: " ++ exn_str e)
          else
            logger_exception
              ("Unexpected error in add_multiple_test_steps for issue '"
               ++ issue_id ++ "':") e ;;;
            ret (ERROR, "An unexpected error occurred while adding test steps.")) ;;
       let '(log_level, error_message) := classified in
       let error_result :=
         [("success", JBool false);
          ("error", JStr (exn_str e));
          ("issue_id", JStr issue_id);
          ("project_id", JStr project_id)] in
       logger_log log_level
         ("add_multiple_test_steps failed for issue '" ++ issue_id ++ "': "
          ++ error_message) ;;;
       ret error_result).

Definition add_multiple_test_steps (ctx : Context)
  (issue_id project_id steps : string) : M dict :=
  check_write_access
    (add_multiple_test_steps__wrapped issue_id project_id steps) ctx.

(** *** The tool surface *)

(** An invocation of a mutating tool (tag "write"), with its arguments. *)
Inductive mutating_call :=
| Create_testcase (testcase_data : string)
| Update_testcase (test_case_key testcase_data : string)
| Delete_testcase (test_case_key : string)
| Create_testplan (testplan_data : string)
| Create_testrun (testrun_data : string)
| Create_testresult (testresult_data : string)
| Add_test_step (issue_id project_id step : string)
    (data result : option string)
| Add_multiple_test_steps (issue_id project_id steps : string).

(** An invocation of a reading tool. *)
Inductive reading_call :=
| Get_testcase (test_case_key : string) (fields : option string)
| Search_testcases (query fields : option string) (start_at max_results : Z)
| Get_testplan (test_plan_key : string) (fields : option string)
| Search_testplans (query fields : option string) (start_at max_results : Z)
| Get_testrun (test_run_key : string) (fields : option string)
| Search_testruns (query fields : option string) (start_at max_results : Z)
| Get_testcase_latest_result (test_case_key : string)
| Get_testrun_results (test_run_key : string)
| Get_test_steps (issue_id project_id : string).

Definition invoke_mutating (ctx : Context) (c : mutating_call) : M dict :=
  match c with
  | Create_testcase d => create_testcase ctx d
  | Update_testcase k d => update_testcase ctx k d
  | Delete_testcase k => delete_testcase ctx k
  | Create_testplan d => create_testplan ctx d
  | Create_testrun d => create_testrun ctx d
  | Create_testresult d => create_testresult ctx d
  | Add_test_step i p s d r => add_test_step ctx i p s d r
  | Add_multiple_test_steps i p s => add_multiple_test_steps ctx i p s
  end.

Definition invoke_reading (ctx : Context) (c : reading_call) : M dict :=
  match c with
  | Get_testcase k f => get_testcase ctx k f
  | Search_testcases q f s m => search_testcases ctx q f s m
  | Get_testplan k f => get_testplan ctx k f
  | Search_testplans q f s m => search_testplans ctx q f s m
  | Get_testrun k f => get_testrun ctx k f
  | Search_testruns q f s m => search_testruns ctx q f s m
  | Get_testcase_latest_result k => get_testcase_latest_result ctx k
  | Get_testrun_results k => get_testrun_results ctx k
  | Get_test_steps i p => get_test_steps ctx i p
  end.

(** The [try] block a call runs once it is past the gate. *)
Definition try_block_mutating (ctx : Context) (c : mutating_call) : M dict :=
  match c with
  | Create_testcase d => create_testcase_try d ctx
  | Update_testcase k d => update_testcase_try k d ctx
  | Delete_testcase k => delete_testcase_try k ctx
  | Create_testplan d => create_testplan_try d ctx
  | Create_testrun d => create_testrun_try d ctx
  | Create_testresult d => create_testresult_try d ctx
  | Add_test_step i p s d r => add_test_step_try i p s d r ctx
  | Add_multiple_test_steps i p s => add_multiple_test_steps_try i p s ctx
  end.

Definition try_block_reading (ctx : Context) (c : reading_call) : M dict :=
  match c with
  | Get_testcase k f => get_testcase_try ctx k f
  | Search_testcases q f s m => search_testcases_try ctx q f s m
  | Get_testplan k f => get_testplan_try ctx k f
  | Search_testplans q f s m => search_testplans_try ctx q f s m
  | Get_testrun k f => get_testrun_try ctx k f
  | Search_testruns q f s m => search_testruns_try ctx q f s m
  | Get_testcase_latest_result k => get_testcase_latest_result_try ctx k
  | Get_testrun_results k => get_testrun_results_try ctx k
  | Get_test_steps i p => get_test_steps_try ctx i p
  end.

(** Reading an envelope. *)
Definition success (envelope : dict) : option json :=
  dict_get envelope "success".

Definition error (envelope : dict) : option json :=
  dict_get envelope "error".

Definition empty_world : world :=
  {| backend_calls := []; logged := [] |}.

(** *** Vocabulary of the specification *)

(** Any tool invocation. *)
Inductive tool_call :=
| Read (c : reading_call)
| Write (c : mutating_call).

Definition invoke (ctx : Context) (c : tool_call) : M dict :=
  match c with
  | Read c => invoke_reading ctx c
  | Write c => invoke_mutating ctx c
  end.

Definition try_block (ctx : Context) (c : tool_call) : M dict :=
  match c with
  | Read c => try_block_reading ctx c
  | Write c => try_block_mutating ctx c
  end.

(** The gate lets the call through: a reading tool has no gate. *)
Definition gate_open (ctx : Context) (c : tool_call) : bool :=
  match c with
  | Read _ => true
  | Write _ => write_access_flag ctx
  end.

(** The invocation ends in the fault [e]: its [try] block, run in [w],
    raises [e] and leaves the world [w']. *)
Definition ends_in (ctx : Context) (c : tool_call) (w : world) (e : exn)
  (w' : world) : Prop :=
  try_block ctx c w = (Raise e, w').

(** The three tools of the original test-step family. *)
Definition is_step_tool (c : tool_call) : bool :=
  match c with
  | Read (Get_test_steps _ _) => true
  | Write (Add_test_step _ _ _ _ _) => true
  | Write (Add_multiple_test_steps _ _ _) => true
  | _ => false
  end.

Definition step_tool_name (c : tool_call) : string :=
  match c with
  | Read (Get_test_steps _ _) => "get_test_steps"
  | Write (Add_test_step _ _ _ _ _) => "add_test_step"
  | Write (Add_multiple_test_steps _ _ _) => "add_multiple_test_steps"
  | _ => ""
  end.

Definition issue_and_project (c : tool_call) : string * string :=
  match c with
  | Read (Get_test_steps i p) => (i, p)
  | Write (Add_test_step i p _ _ _) => (i, p)
  | Write (Add_multiple_test_steps i p _) => (i, p)
  | _ => ("", "")
  end.


Definition is_authentication (e : exn) : bool :=
  isinstance e MCPAtlassianAuthenticationError.



(** The fixed text that precedes the rendering of an unexpected fault in
    the envelope: none for the test-step tools. *)
Definition failure_prefix (c : tool_call) : string :=
  match c with
  | Read (Get_testcase _ _) => "Failed to get test case: "
  | Read (Search_testcases _ _ _ _) => "Failed to search test cases: "
  | Read (Get_testplan _ _) => "Failed to get test plan: "
  | Read (Search_testplans _ _ _ _) => "Failed to search test plans: "
  | Read (Get_testrun _ _) => "Failed to get test run: "
  | Read (Search_testruns _ _ _ _) => "Failed to search test runs: "
  | Read (Get_testcase_latest_result _) => "Failed to get latest test result: "
  | Read (Get_testrun_results _) => "Failed to get test run results: "
  | Read (Get_test_steps _ _) => ""
  | Write (Create_testcase _) => "Failed to create test case: "
  | Write (Update_testcase _ _) => "Failed to update test case: "
  | Write (Delete_testcase _) => "Failed to delete test case: "
  | Write (Create_testplan _) => "Failed to create test plan: "
  | Write (Create_testrun _) => "Failed to create test run: "
  | Write (Create_testresult _) => "Failed to create test result: "
  | Write (Add_test_step _ _ _ _ _) => ""
  | Write (Add_multiple_test_steps _ _ _) => ""
  end.

(** The envelope of a call that failed with a fault rendered as
    [rendering]: the test-step tools echo the issue and the project. *)
Definition failure_envelope (c : tool_call) (rendering : string) : dict :=
  if is_step_tool c then
    [("success", JBool false);
     ("error", JStr rendering);
     ("issue_id", JStr (fst (issue_and_project c)));
     ("project_id", JStr (snd (issue_and_project c)))]
  else
    [("success", JBool false);
     ("error", JStr (failure_prefix c ++ rendering))].

(** The four tools that get one entity by its key. *)
Inductive get_tool :=
| The_testcase
| The_testplan
| The_testrun
| The_testrun_results.

Definition get_call (t : get_tool) (key : string) (fields : option string)
  : reading_call :=
  match t with
  | The_testcase => Get_testcase key fields
  | The_testplan => Get_testplan key fields
  | The_testrun => Get_testrun key fields
  | The_testrun_results => Get_testrun_results key
  end.

Definition forget {A} (r : result A) : result unit :=
  match r with
  | Ok _ => Ok tt
  | Raise e => Raise e
  end.

(** What the backend answers to the call of a get tool, a value or a
    fault, and the call it receives. *)
Definition backend_get (zephyr : ZephyrFetcher) (t : get_tool) (key : string)
  (fields : option string) : result unit :=
  match t with
  | The_testcase => forget (zf_get_testcase zephyr key fields)
  | The_testplan => forget (zf_get_testplan zephyr key fields)
  | The_testrun => forget (zf_get_testrun zephyr key fields)
  | The_testrun_results => forget (zf_get_testrun_results zephyr key)
  end.

Definition backend_get_call (t : get_tool) (key : string)
  (fields : option string) : backend_call :=
  match t with
  | The_testcase => Call_get_testcase key fields
  | The_testplan => Call_get_testplan key fields
  | The_testrun => Call_get_testrun key fields
  | The_testrun_results => Call_get_testrun_results key
  end.

Definition not_found_prefix (t : get_tool) : string :=
  match t with
  | The_testcase => "Test case not found: "
  | The_testplan => "Test plan not found: "
  | The_testrun => "Test run not found: "
  | The_testrun_results => "Test run not found: "
  end.

(** The error string of the envelope contains [text]. *)
Definition error_contains (text : string) (envelope : dict) : bool :=
  match error envelope with
  | Some (JStr msg) => contains text msg
  | _ => false
  end.

Definition error_startswith (text : string) (envelope : dict) : bool :=
  match error envelope with
  | Some (JStr msg) => startswith text msg
  | _ => false
  end.

(** The world after a call reached the backend. *)
Definition after_call (w : world) (c : backend_call) : world :=
  {| backend_calls := backend_calls w ++ [c]; logged := logged w |}.

(** The world after lines were logged. *)
Definition after_log (w : world) (l : list record) : world :=
  {| backend_calls := backend_calls w; logged := logged w ++ l |}.

(** The claims of the specification about the rendering of faults, as they
    are worded. *)

(** The not-found error of a get tool echoes the key of the request. *)
Definition not_found_echoes_key (ctx : Context) (t : get_tool) (key : string)
  (fields : option string) (w : world) : Prop :=
  exists envelope w',
    invoke_reading ctx (get_call t key fields) w = (Ok envelope, w')
    /\ success envelope = Some (JBool false)
    /\ error_contains "not found" envelope = true
    /\ error_contains key envelope = true.


(** The error returned for an authentication fault carries the prefix, and
    what is logged for it is less severe than what is logged for an
    unexpected fault. *)
Definition authentication_rule (envelope : dict)
  (logged_for_authentication logged_for_unexpected : list record) : Prop :=
  error_startswith "Authentication/Permission Error:" envelope = true
  /\ forall r r',
       In r logged_for_authentication -> In r' logged_for_unexpected ->
       (levelno (levelname r) < levelno (levelname r'))%nat.

(** *** Structural validation of a batch *)



(** *** The functions under the decorators *)

(** The function a tool name is bound to before [@check_write_access]
    wraps it: for a reading tool the tool itself. *)
Definition tool_body (ctx : Context) (c : tool_call) : M dict :=
  match c with
  | Read c => invoke_reading ctx c
  | Write (Create_testcase d) => create_testcase__wrapped d ctx
  | Write (Update_testcase k d) => update_testcase__wrapped k d ctx
  | Write (Delete_testcase k) => delete_testcase__wrapped k ctx
  | Write (Create_testplan d) => create_testplan__wrapped d ctx
  | Write (Create_testrun d) => create_testrun__wrapped d ctx
  | Write (Create_testresult d) => create_testresult__wrapped d ctx
  | Write (Add_test_step i p s d r) => add_test_step__wrapped i p s d r ctx
  | Write (Add_multiple_test_steps i p s) =>
      add_multiple_test_steps__wrapped i p s ctx
  end.

(** *** More vocabulary *)

(** The call the backend receives from a reading tool. *)
Definition backend_call_of (c : reading_call) : backend_call :=
  match c with
  | Get_testcase k f => Call_get_testcase k f
  | Search_testcases q f s m => Call_search_testcases q f s m
  | Get_testplan k f => Call_get_testplan k f
  | Search_testplans q f s m => Call_search_testplans q f s m
  | Get_testrun k f => Call_get_testrun k f
  | Search_testruns q f s m => Call_search_testruns q f s m
  | Get_testcase_latest_result k => Call_get_testcase_latest_result k
  | Get_testrun_results k => Call_get_testrun_results k
  | Get_test_steps i p => Call_get_test_steps i p
  end.

(** For the four tools that read a list: what the backend answers, and the
    key under which the envelope carries the list. *)
Definition listing (zephyr : ZephyrFetcher) (c : reading_call)
  : option (result (list entity) * string) :=
  match c with
  | Search_testcases q f s m =>
      Some (zf_search_testcases zephyr q f s m, "test_cases")
  | Search_testplans q f s m =>
      Some (zf_search_testplans zephyr q f s m, "test_plans")
  | Search_testruns q f s m =>
      Some (zf_search_testruns zephyr q f s m, "test_runs")
  | Get_testrun_results k =>
      Some (zf_get_testrun_results zephyr k, "test_results")
  | _ => None
  end.

(** The JSON text a mutating tool decodes before it calls the backend. *)
Definition json_payload (c : mutating_call) : option string :=
  match c with
  | Create_testcase d => Some d
  | Update_testcase _ d => Some d
  | Create_testplan d => Some d
  | Create_testrun d => Some d
  | Create_testresult d => Some d
  | _ => None
  end.

(** The tools with an [except MCPAtlassianNotFoundError] clause. *)
Definition has_not_found_clause (c : tool_call) : bool :=
  match c with
  | Read (Get_testcase _ _) => true
  | Read (Get_testplan _ _) => true
  | Read (Get_testrun _ _) => true
  | Read (Get_testrun_results _) => true
  | Write (Update_testcase _ _) => true
  | Write (Delete_testcase _) => true
  | _ => false
  end.

(** An envelope is well formed: [success] is a boolean, and there is an
    [error], a string, exactly when it is false. *)
Definition well_formed (envelope : dict) : Prop :=
  match success envelope, error envelope with
  | Some (JBool true), None => True
  | Some (JBool false), Some (JStr _) => True
  | _, _ => False
  end.

(** The backend received nothing more, or one more call. *)
Definition at_most_one_call (w w' : world) : Prop :=
  backend_calls w' = backend_calls w
  \/ exists c, backend_calls w' = (backend_calls w ++ [c])%list.

(** Every element of a batch yields its request, in order. *)
Definition built_in_order (items : list json)
  (requests : list TestStepRequest) : Prop :=
  Forall2 (fun item request => build_step_request item = Ok request)
          items requests.

(** The text that precedes the rendering of a not-found fault, for the tools
    that have the clause. *)
Definition not_found_text (c : tool_call) : string :=
  match c with
  | Read (Get_testplan _ _) => "Test plan not found: "
  | Read (Get_testrun _ _) => "Test run not found: "
  | Read (Get_testrun_results _) => "Test run not found: "
  | _ => "Test case not found: "
  end.

(** The fault [AttributeError] raised by [.get] on a value that is not a
    [dict]. *)
Definition no_attribute_get (v : json) : exn :=
  {| exn_type := AttributeError;
     exn_str := "'" ++ type_name v ++ "' object has no attribute 'get'";
     exn_traceback := [];
     exn_attrs := [] |}.

Definition is_object (v : json) : bool :=
  match v with
  | JDict _ => true
  | _ => false
  end.

End ToolDefinitions.

End Zephyr.

(** ** Collaborators for concrete runs *)

Module Doubles.
Import PyStr Exc Json Zephyr.

Definition fault (c : exn_class) (msg : string) : exn :=
  {| exn_type := c; exn_str := msg; exn_traceback := []; exn_attrs := [] |}.

(** [models/zephyr.py] is not among the sources.  A step request carries
    the description of the step and, optionally, the test data and the
    expected result; the tools declare them as [str], [str | None] and
    [str | None]. *)
Record StepRequest := {
  step : string;
  data : option string;
  result : option string
}.

Definition optional_str (v : json) : option (option string) :=
  match v with
  | JNull => Some None
  | JStr s => Some (Some s)
  | _ => None
  end.

(** A request model that checks the types of the three fields and nothing
    more. *)
Definition StepRequest_init (step data result : json)
  : Zephyr.result StepRequest :=
  match step, optional_str data, optional_str result with
  | JStr s, Some d, Some r =>
      Ok {| step := s; data := d; result := r |}
  | _, _, _ =>
      Raise (fault (OtherError "ValidationError")
                   "validation error for TestStepRequest")
  end.

Definition loads (s : string) : Zephyr.result json :=
  match decode s with
  | Some v => Ok v
  | None => Raise (fault JSONDecodeError "Expecting value")
  end.

#[local] Instance domain : Domain := {|
  entity := json;
  TestStepRequest := StepRequest
|}.

#[local] Instance collaborators : Collaborators := {|
  to_simplified_dict := fun v => v;
  json_loads := loads;
  TestStepRequest_init := StepRequest_init
|}.

Definition step_entity (r : StepRequest) : json :=
  JDict [("step", JStr (step r));
         ("data", of_option (data r));
         ("result", of_option (result r))].

(** A test double of the Zephyr client.  Reading one entity answers
    [found], reading a list answers [listed], the latest result is
    [latest], a creation answers [created], an update or deletion answers
    [done]; of a batch of steps the backend creates those it [accepts]. *)
Definition zephyr_double
  (found : Zephyr.result json) (listed : Zephyr.result (list json))
  (latest : Zephyr.result (option json)) (created : Zephyr.result json)
  (done : Zephyr.result unit) (accepts : StepRequest -> bool)
  : ZephyrFetcher := {|
  zf_get_testcase := fun _ _ => found;
  zf_create_testcase := fun _ => created;
  zf_update_testcase := fun _ _ => done;
  zf_delete_testcase := fun _ => done;
  zf_search_testcases := fun _ _ _ _ => listed;
  zf_get_testplan := fun _ _ => found;
  zf_create_testplan := fun _ => created;
  zf_search_testplans := fun _ _ _ _ => listed;
  zf_get_testrun := fun _ _ => found;
  zf_create_testrun := fun _ => created;
  zf_search_testruns := fun _ _ _ _ => listed;
  zf_create_testresult := fun _ => created;
  zf_get_testcase_latest_result := fun _ => latest;
  zf_get_testrun_results := fun _ => listed;
  zf_get_test_steps := fun _ _ => found;
  zf_add_test_step := fun _ _ r => Ok (step_entity r);
  zf_add_multiple_test_steps := fun _ _ rs =>
    Ok (List.map step_entity (List.filter accepts rs))
|}.

(** A client on which every read finds something and every write is
    accepted. *)
Definition obliging : ZephyrFetcher :=
  zephyr_double (Ok (JDict [("key", JStr "JQA-T1")])) (Ok [])
                (Ok None) (Ok (JStr "JQA-T2")) (Ok tt) (fun _ => true).

Definition read_write (zf : ZephyrFetcher) : Context :=
  {| write_access_flag := true; zephyr_fetcher := Ok zf |}.

Definition read_only (zf : ZephyrFetcher) : Context :=
  {| write_access_flag := false; zephyr_fetcher := Ok zf |}.

(** Modelled from the spec: [utils/urls.py] is not among the sources.  A
    base URL is cloud-shaped when it carries a recognized cloud-hosting
    domain suffix. *)
Definition is_atlassian_cloud_url (url : string) : bool :=
  contains ".atlassian.net" url.

(** Faults. *)
Definition absent : exn :=
  fault MCPAtlassianNotFoundError "404 Client Error: Not Found".

Definition denied : exn :=
  fault MCPAtlassianAuthenticationError "401 Unauthorized".

Definition broken : exn :=
  {| exn_type := OtherError "ConnectionError";
     exn_str := "HTTPSConnectionPool(host='zephyr.internal', port=443): Max retries exceeded";
     exn_traceback := ["zephyr/client.py, line 88, in _request"];
     exn_attrs := [("token", "s3cr3t")] |}.

(** A client whose every read raises [e]. *)
Definition failing_with (e : exn) : ZephyrFetcher :=
  zephyr_double (Raise e) (Raise e) (Raise e) (Raise e) (Raise e)
                (fun _ => true).

(** A client that creates every step of a batch but the one that says
    "Log out". *)
Definition picky : ZephyrFetcher :=
  zephyr_double (Ok JNull) (Ok []) (Ok None) (Ok JNull) (Ok tt)
                (fun r => negb (String.eqb (step r) "Log out")).

(** Batches of steps, as the JSON text a caller sends. *)
Definition three_steps : string :=
  requote "[{'step': 'Log in', 'data': 'alice', 'result': 'Welcome'}, {'step': 'Open the plan'}, {'step': 'Log out'}]".


Definition three_steps_and_a_number : string :=
  requote "[{'step': 'Log in'}, {'step': 'Open the plan'}, 7, {'step': 'Log out'}]".

(** Environments. *)
Definition everything_at_once : gmap string string :=
  {[ "JIRA_URL" := "https://jira.example.com";
     "JIRA_USERNAME" := "alice";
     "JIRA_API_TOKEN" := "api-token";
     "JIRA_PERSONAL_TOKEN" := "personal-token";
     "ATLASSIAN_OAUTH_CLIENT_ID" := "client-id";
     "ATLASSIAN_OAUTH_CLIENT_SECRET" := "client-secret";
     "ATLASSIAN_OAUTH_REDIRECT_URI" := "http://localhost:8080/callback";
     "ATLASSIAN_OAUTH_SCOPE" := "read:jira-work";
     "ATLASSIAN_OAUTH_CLOUD_ID" := "cloud-id" ]}.

Definition only_oauth_enable : gmap string string :=
  {[ "ATLASSIAN_OAUTH_ENABLE" := "Yes" ]}.

(** More environments. *)
Definition cloud_with_basic : gmap string string :=
  {[ "JIRA_URL" := "https://acme.atlassian.net";
     "JIRA_USERNAME" := "alice@example.com";
     "JIRA_API_TOKEN" := "api-token" ]}.

Definition server_with_pat : gmap string string :=
  {[ "CONFLUENCE_URL" := "https://wiki.example.com";
     "CONFLUENCE_PERSONAL_TOKEN" := "personal-token" ]}.

Definition with_access_token : gmap string string :=
  {[ "JIRA_URL" := "https://acme.atlassian.net";
     "JIRA_USERNAME" := "alice@example.com";
     "JIRA_API_TOKEN" := "api-token";
     "ATLASSIAN_OAUTH_ACCESS_TOKEN" := "access-token";
     "ATLASSIAN_OAUTH_CLOUD_ID" := "cloud-id" ]}.

(** [cloud_with_basic] with the wiki and test management set up as well. *)
Definition cloud_with_neighbours : gmap string string :=
  <[ "CONFLUENCE_URL" := "https://wiki.example.com" ]>
    (<[ "CONFLUENCE_PERSONAL_TOKEN" := "personal-token" ]>
       (<[ "ZEPHYR_API_TOKEN" := "zephyr-token" ]> cloud_with_basic)).

(** [cloud_with_basic] with the OAuth flag set. *)
Definition cloud_with_oauth_enable : gmap string string :=
  <[ "ATLASSIAN_OAUTH_ENABLE" := "true" ]> cloud_with_basic.

(** Modelled from the spec: the constructor of [TestStepRequest] is in
    [models/zephyr.py], not among the sources.  The step is a required
    field and an element that lacks it is malformed: the model refuses a
    step without text, which is what the loop hands it for an element
    without "step". *)
Definition StepRequest_init_strict (step data result : json)
  : Zephyr.result StepRequest :=
  match step with
  | JStr EmptyString =>
      Raise (fault (OtherError "ValidationError")
                   "String should have at least 1 character")
  | _ => StepRequest_init step data result
  end.

Definition strict_collaborators : Collaborators := {|
  to_simplified_dict := fun v => v;
  json_loads := loads;
  TestStepRequest_init := StepRequest_init_strict
|}.

(** More faults and clients. *)
Definition leaky : exn :=
  {| exn_type := OtherError "RuntimeError";
     exn_str := "token=s3cr3t at zephyr/client.py, line 88";
     exn_traceback := ["zephyr/client.py, line 88, in _request"];
     exn_attrs := [("token", "s3cr3t")] |}.

Definition not_configured_client : exn :=
  fault ValueError "Zephyr client is not configured or available.".

Definition issue_not_found : exn :=
  fault ValueError "Issue 10001 Not Found in project 10000".

Definition without_client : Context :=
  {| write_access_flag := true; zephyr_fetcher := Raise not_configured_client |}.

(** A client that finds two entities on every search. *)
Definition two_found : ZephyrFetcher :=
  zephyr_double (Ok JNull)
                (Ok [JDict [("key", JStr "JQA-T1")]; JDict [("key", JStr "JQA-T2")]])
                (Ok None) (Ok JNull) (Ok tt) (fun _ => true).

End Doubles.

(** * Properties of the credential resolver *)

Module EnvironmentSpec.
Import PyStr Logging Log Environment.

(** ** Lowering and case-insensitive comparison *)

Lemma in_all_ascii (a : ascii) : In a all_ascii.
Proof.
  unfold all_ascii. rewrite <- (ascii_nat_embedding a).
  apply in_map, in_seq. pose proof (nat_ascii_bounded a). lia.
Qed.

Lemma lower_char_eq_nocase (a b : ascii) :
  is_upper b = false ->
  Ascii.eqb (lower_char a) b = char_eq_nocase a b.
Proof.
  assert (Hall : forallb (fun a => forallb (fun b =>
            implb (negb (is_upper b))
                  (Bool.eqb (Ascii.eqb (lower_char a) b) (char_eq_nocase a b)))
            all_ascii) all_ascii = true) by (vm_compute; reflexivity).
  rewrite forallb_forall in Hall.
  specialize (Hall a (in_all_ascii a)). rewrite forallb_forall in Hall.
  specialize (Hall b (in_all_ascii b)).
  intros Hb. rewrite Hb in Hall. simpl in Hall.
  now apply Bool.eqb_prop.
Qed.

Lemma lower_eqb_eq_nocase (s t : string) :
  no_upper t = true ->
  String.eqb (lower s) t = eq_nocase s t.
Proof.
  revert t. induction s as [|a s IH]; intros [|b t]; simpl; try reflexivity.
  intros Ht. apply andb_prop in Ht as [Hb Ht].
  apply negb_true_iff in Hb.
  rewrite (lower_char_eq_nocase a b Hb).
  destruct (char_eq_nocase a b); simpl; [now apply IH | reflexivity].
Qed.

(** The membership test of the code is the case-insensitive comparison of
    the specification. *)
Lemma in_tuple_lower_oauth_enable (environ : gmap string string) :
  in_tuple (lower (os_getenv_default environ "ATLASSIAN_OAUTH_ENABLE" ""))
           ["true"; "1"; "yes"]
  = oauth_enable environ.
Proof.
  unfold in_tuple, oauth_enable. simpl.
  rewrite !lower_eqb_eq_nocase by reflexivity. reflexivity.
Qed.


(** A variable is present exactly when it is set to a string that is not
    empty: an empty value counts as no value. *)
Lemma present_iff (environ : gmap string string) (name : string) :
  present environ name = true
  <-> exists v, environ !! name = Some v /\ v <> EmptyString.
Proof.
  unfold present, os_getenv. destruct (environ !! name) as [[|c v]|]; simpl.
  - split; [discriminate | intros (v & [= <-] & Hv); now destruct Hv].
  - split; [intros _; eexists; split; [reflexivity | discriminate] | reflexivity].
  - split; [discriminate | intros (v & [=] & _)].
Qed.

(** ** The three parts and the lines they log *)

#[local] Ltac split_ifs :=
  repeat match goal with
         | |- context [if ?b then _ else _] => destruct b eqn:?
         end.

Lemma filter_all {A} (P : A -> bool) (l : list A) :
  Forall (fun x => P x = true) l -> List.filter P l = l.
Proof.
  induction 1 as [|x l Hx _ IH]; simpl; [reflexivity|].
  now rewrite Hx, IH.
Qed.

Lemma filter_none {A} (P : A -> bool) (l : list A) :
  Forall (fun x => P x = false) l -> List.filter P l = [].
Proof.
  induction 1 as [|x l Hx _ IH]; simpl; [reflexivity|].
  now rewrite Hx.
Qed.

Section Resolver.
Variable is_cloud : string -> bool.

(** Every line of the Confluence part is an INFO line "Using
    Confluence ...". *)
Lemma confluence_part_lines (environ : gmap string string) :
  Forall (fun r => levelname r = INFO
                   /\ startswith "Using Confluence " (message r) = true)
         (snd (confluence_part is_cloud environ)).
Proof.
  unfold confluence_part. split_ifs; simpl;
    repeat constructor.
Qed.

Lemma jira_part_lines (environ : gmap string string) :
  Forall (fun r => levelname r = INFO
                   /\ startswith "Using Jira " (message r) = true)
         (snd (jira_part is_cloud environ)).
Proof.
  unfold jira_part. split_ifs; simpl; repeat constructor.
Qed.

(** The Zephyr part, as a function of the two variables it reads. *)
Lemma zephyr_part_eq (environ : gmap string string) :
  zephyr_part environ =
  match present environ "ZEPHYR_API_TOKEN",
        present environ "ZEPHYR_BASE_URL" with
  | true, true =>
      (true, [info "Using Zephyr test management Bearer token authentication"])
  | true, false => (false, [zephyr_missing_url])
  | false, true => (false, [zephyr_missing_token])
  | false, false => (false, [])
  end.
Proof.
  unfold zephyr_part, present.
  destruct (truthy_opt (os_getenv environ "ZEPHYR_API_TOKEN"));
    destruct (truthy_opt (os_getenv environ "ZEPHYR_BASE_URL"));
    reflexivity.
Qed.

(** The run as a whole: the map and the log in terms of the parts. *)
Lemma get_available_services_eq (environ : gmap string string) :
  get_available_services is_cloud environ =
  let c := confluence_part is_cloud environ in
  let j := jira_part is_cloud environ in
  let z := zephyr_part environ in
  ({[ "confluence" := fst c; "jira" := fst j; "zephyr" := fst z ]},
   (snd c ++ snd j ++ snd z
    ++ (if negb (fst c)
        then [info "Confluence is not configured or required environment variables are missing."]
        else [])
    ++ (if negb (fst j)
        then [info "Jira is not configured or required environment variables are missing."]
        else [])
    ++ (if negb (fst z)
        then [info "Zephyr is not configured or required environment variable (ZEPHYR_API_TOKEN) is missing."]
        else []))%list).
Proof.
  unfold get_available_services.
  destruct (confluence_part is_cloud environ) as [c lc].
  destruct (jira_part is_cloud environ) as [j lj].
  destruct (zephyr_part environ) as [z lz]. reflexivity.
Qed.

Lemma availability_confluence (environ : gmap string string) :
  availability is_cloud environ Confluence
  = Some (fst (confluence_part is_cloud environ)).
Proof.
  unfold availability. rewrite get_available_services_eq. simpl.
  now rewrite lookup_insert_eq.
Qed.

Lemma availability_jira (environ : gmap string string) :
  availability is_cloud environ Jira
  = Some (fst (jira_part is_cloud environ)).
Proof.
  unfold availability. rewrite get_available_services_eq. simpl.
  rewrite lookup_insert_ne by discriminate.
  now rewrite lookup_insert_eq.
Qed.

Lemma availability_zephyr (environ : gmap string string) :
  availability is_cloud environ Zephyr = Some (fst (zephyr_part environ)).
Proof.
  unfold availability. rewrite get_available_services_eq. simpl.
  rewrite !lookup_insert_ne by discriminate.
  now rewrite lookup_singleton_eq.
Qed.


Lemma startswith_app (p s : string) :
  startswith p s = true -> exists r, s = p ++ r.
Proof.
  revert s. induction p as [|a p IH]; intros s Hs; simpl in *.
  - now exists s.
  - destruct s as [|b s]; [discriminate|].
    apply andb_prop in Hs as [Hab Hs]. apply Ascii.eqb_eq in Hab as ->.
    destruct (IH _ Hs) as [r ->]. now exists r.
Qed.

(** The lines that tell the mode of a service are the lines of its own
    part: no other part, and none of the closing lines, starts with
    "Using <Service> ". *)
Lemma mode_lines_confluence (environ : gmap string string) :
  mode_lines is_cloud environ Confluence
  = snd (confluence_part is_cloud environ).
Proof.
  unfold mode_lines. rewrite get_available_services_eq. cbv zeta.
  cbn [snd service_name]. rewrite !List.filter_app.
  rewrite (filter_all _ (snd (confluence_part is_cloud environ))).
  2:{ eapply List.Forall_impl; [|apply confluence_part_lines].
      now intros r [_ Hr]. }
  rewrite (filter_none _ (snd (jira_part is_cloud environ))).
  2:{ eapply List.Forall_impl; [|apply jira_part_lines].
      intros r [_ Hr]. apply startswith_app in Hr as [rest ->].
      reflexivity. }
  rewrite zephyr_part_eq.
  destruct (fst (confluence_part is_cloud environ)),
           (fst (jira_part is_cloud environ)),
           (present environ "ZEPHYR_API_TOKEN"),
           (present environ "ZEPHYR_BASE_URL");
    cbn; now rewrite app_nil_r.
Qed.

Lemma mode_lines_jira (environ : gmap string string) :
  mode_lines is_cloud environ Jira = snd (jira_part is_cloud environ).
Proof.
  unfold mode_lines. rewrite get_available_services_eq. cbv zeta.
  cbn [snd service_name]. rewrite !List.filter_app.
  rewrite (filter_none _ (snd (confluence_part is_cloud environ))).
  2:{ eapply List.Forall_impl; [|apply confluence_part_lines].
      intros r [_ Hr]. apply startswith_app in Hr as [rest ->].
      reflexivity. }
  rewrite (filter_all _ (snd (jira_part is_cloud environ))).
  2:{ eapply List.Forall_impl; [|apply jira_part_lines].
      now intros r [_ Hr]. }
  rewrite zephyr_part_eq.
  destruct (fst (confluence_part is_cloud environ)),
           (fst (jira_part is_cloud environ)),
           (present environ "ZEPHYR_API_TOKEN"),
           (present environ "ZEPHYR_BASE_URL");
    cbn; now rewrite app_nil_r.
Qed.

(** Only the Zephyr part warns. *)
Lemma warnings_zephyr (environ : gmap string string) :
  warnings is_cloud environ =
  match present environ "ZEPHYR_API_TOKEN",
        present environ "ZEPHYR_BASE_URL" with
  | true, false => [zephyr_missing_url]
  | false, true => [zephyr_missing_token]
  | _, _ => []
  end.
Proof.
  unfold warnings. rewrite get_available_services_eq. cbv zeta.
  cbn [snd]. rewrite !List.filter_app.
  rewrite (filter_none _ (snd (confluence_part is_cloud environ))).
  2:{ eapply List.Forall_impl; [|apply confluence_part_lines].
      now intros r [-> _]. }
  rewrite (filter_none _ (snd (jira_part is_cloud environ))).
  2:{ eapply List.Forall_impl; [|apply jira_part_lines].
      now intros r [-> _]. }
  rewrite zephyr_part_eq.
  destruct (fst (confluence_part is_cloud environ)),
           (fst (jira_part is_cloud environ)),
           (present environ "ZEPHYR_API_TOKEN"),
           (present environ "ZEPHYR_BASE_URL");
    reflexivity.
Qed.

(** ** The OAuth client-credential mode *)

Lemma part_oauth_client_credentials (environ : gmap string string) :
  present environ "ATLASSIAN_OAUTH_CLIENT_ID" = true ->
  present environ "ATLASSIAN_OAUTH_CLIENT_SECRET" = true ->
  present environ "ATLASSIAN_OAUTH_REDIRECT_URI" = true ->
  present environ "ATLASSIAN_OAUTH_SCOPE" = true ->
  present environ "ATLASSIAN_OAUTH_CLOUD_ID" = true ->
  (present environ "CONFLUENCE_URL" = true ->
   confluence_part is_cloud environ
   = (true, [oauth_3lo_client_credentials Confluence]))
  /\ (present environ "JIRA_URL" = true ->
      jira_part is_cloud environ
      = (true, [oauth_3lo_client_credentials Jira])).
Proof.
  unfold present, confluence_part, jira_part, all.
  intros H1 H2 H3 H4 H5. cbn [forallb].
  rewrite H1, H2, H3, H4, H5. split; intros ->; reflexivity.
Qed.

(** C2.  Whenever the base URL of the issue tracker or of the wiki is
    present together with the five OAuth client-credential variables
    (client id, client secret, redirect URI, scope, cloud id), the
    resolver marks the service usable and selects the OAuth 2.0 (3LO)
    client-credential mode: whatever the shape of the URL (the test
    [is_cloud] is arbitrary) and whatever else is set (nothing is
    assumed about user name, API token or personal token). *)
Theorem oauth_client_credentials_first
  (environ : gmap string string) (s : service) :
  s <> Zephyr ->
  present environ (url_var s) = true ->
  present environ "ATLASSIAN_OAUTH_CLIENT_ID" = true ->
  present environ "ATLASSIAN_OAUTH_CLIENT_SECRET" = true ->
  present environ "ATLASSIAN_OAUTH_REDIRECT_URI" = true ->
  present environ "ATLASSIAN_OAUTH_SCOPE" = true ->
  present environ "ATLASSIAN_OAUTH_CLOUD_ID" = true ->
  availability is_cloud environ s = Some true
  /\ mode_lines is_cloud environ s = [oauth_3lo_client_credentials s].
Proof.
  intros Hs Hurl H1 H2 H3 H4 H5.
  destruct (part_oauth_client_credentials environ H1 H2 H3 H4 H5)
    as [Hc Hj].
  destruct s; [ | | congruence ].
  - rewrite availability_confluence, mode_lines_confluence, (Hc Hurl).
    now split.
  - rewrite availability_jira, mode_lines_jira, (Hj Hurl). now split.
Qed.


(** ** No base URL *)

Lemma part_without_base_url (environ : gmap string string) :
  (present environ "CONFLUENCE_URL" = false ->
   confluence_part is_cloud environ
   = if oauth_enable environ
     then (true, [minimal_oauth_header_provided Confluence])
     else (false, []))
  /\ (present environ "JIRA_URL" = false ->
      jira_part is_cloud environ
      = if oauth_enable environ
        then (true, [minimal_oauth_header_provided Jira])
        else (false, [])).
Proof.
  unfold present, confluence_part, jira_part.
  split; intros ->; rewrite in_tuple_lower_oauth_enable;
    destruct (oauth_enable environ); reflexivity.
Qed.

(** C3, amended.  With no base URL for a service (unset, or set to the
    empty string): for the issue tracker and for the wiki the service is
    usable, in the minimal OAuth mode, exactly when ATLASSIAN_OAUTH_ENABLE
    is "true", "1" or "yes" up to case, and unusable for any other value
    and when it is unset; the test-management service is unusable
    whatever ATLASSIAN_OAUTH_ENABLE says. *)
Theorem minimal_oauth_without_base_url
  (environ : gmap string string) (s : service) :
  present environ (url_var s) = false ->
  (s <> Zephyr -> oauth_enable_rule is_cloud environ s)
  /\ (s = Zephyr -> availability is_cloud environ s = Some false).
Proof.
  intros Hurl. destruct (part_without_base_url environ) as [Hc Hj].
  unfold oauth_enable_rule. destruct s; cbn [url_var] in Hurl.
  - split; [intros _ | discriminate].
    rewrite availability_confluence, mode_lines_confluence, (Hc Hurl).
    split; intros ->; auto.
  - split; [intros _ | discriminate].
    rewrite availability_jira, mode_lines_jira, (Hj Hurl).
    split; intros ->; auto.
  - split; [congruence | intros _].
    rewrite availability_zephyr, zephyr_part_eq, Hurl.
    now destruct (present environ "ZEPHYR_API_TOKEN").
Qed.

(** ** The test-management service *)

(** C9.  The test-management service is usable exactly when both
    ZEPHYR_API_TOKEN and ZEPHYR_BASE_URL are present.  With the token
    alone the run warns that the URL is missing, with the URL alone that
    the token is missing; the two warnings differ, and in both cases
    the service is unusable. *)
Theorem zephyr_needs_token_and_url (environ : gmap string string) :
  availability is_cloud environ Zephyr
  = Some (present environ "ZEPHYR_API_TOKEN"
          && present environ "ZEPHYR_BASE_URL")
  /\ warnings is_cloud environ
     = (if present environ "ZEPHYR_API_TOKEN"
           && negb (present environ "ZEPHYR_BASE_URL")
        then [zephyr_missing_url]
        else if present environ "ZEPHYR_BASE_URL"
                && negb (present environ "ZEPHYR_API_TOKEN")
        then [zephyr_missing_token]
        else [])
  /\ String.eqb (message zephyr_missing_url) (message zephyr_missing_token)
     = false.
Proof.
  rewrite availability_zephyr, warnings_zephyr, zephyr_part_eq.
  destruct (present environ "ZEPHYR_API_TOKEN"),
           (present environ "ZEPHYR_BASE_URL"); repeat split.
Qed.

End Resolver.

(** ** Concrete runs *)

(** A server-shaped base URL with every kind of credential set at once. *)
Lemma oauth_client_credentials_first_witness :
  Doubles.is_atlassian_cloud_url "https://jira.example.com" = false
  /\ present Doubles.everything_at_once "JIRA_PERSONAL_TOKEN" = true
  /\ availability Doubles.is_atlassian_cloud_url Doubles.everything_at_once Jira
     = Some true
  /\ mode_lines Doubles.is_atlassian_cloud_url Doubles.everything_at_once Jira
     = [oauth_3lo_client_credentials Jira].
Proof.
  split; [reflexivity|]. split; [vm_compute; reflexivity|].
  apply (oauth_client_credentials_first
           Doubles.is_atlassian_cloud_url Doubles.everything_at_once Jira);
    [discriminate | vm_compute; reflexivity ..].
Defined.

(** With only ATLASSIAN_OAUTH_ENABLE=Yes in the environment the
    test-management service has no base URL, the flag is truthy, and the
    service is not usable: the rule does not hold of every service. *)
Lemma oauth_enable_rule_fails_for_zephyr :
  ~ (present Doubles.only_oauth_enable (url_var Zephyr) = false ->
     oauth_enable_rule Doubles.is_atlassian_cloud_url
                       Doubles.only_oauth_enable Zephyr).
Proof.
  intros Hrule. destruct (Hrule eq_refl) as [Hon _].
  destruct (Hon eq_refl) as [Hav _].
  vm_compute in Hav. discriminate.
Qed.

Lemma minimal_oauth_without_base_url_witness :
  present Doubles.only_oauth_enable (url_var Jira) = false
  /\ oauth_enable_rule Doubles.is_atlassian_cloud_url
                       Doubles.only_oauth_enable Jira.
Proof.
  split; [reflexivity|].
  apply (minimal_oauth_without_base_url
           Doubles.is_atlassian_cloud_url Doubles.only_oauth_enable Jira);
    [reflexivity | discriminate].
Defined.

End EnvironmentSpec.

(** * Properties of the Zephyr tools *)

Module ZephyrSpec.
Import PyStr Logging Exc Log Json Zephyr.
Local Open Scope py_scope.

(** Unfolding the plumbing of a tool down to the collaborators. *)
#[local] Ltac run :=
  unfold try_except, bind, ret, raise, lift, call, emit, logger_exception,
         logger_log, logger_warning, get_zephyr_fetcher, after_call,
         after_log in *.

Section Tools.
Context `{Collaborators}.

(** ** The gate *)

Lemma gate_closed (func : Context -> M dict) (ctx : Context) (w : world) :
  write_access_flag ctx = false ->
  check_write_access func ctx w
  = (Ok [("success", JBool false); ("error", JStr read_only_error)],
     after_log w [warning "Attempted to call a write tool in read-only mode."]).
Proof.
  intros Hflag. unfold check_write_access. rewrite Hflag. reflexivity.
Qed.

Lemma gate_opened (func : Context -> M dict) (ctx : Context) :
  write_access_flag ctx = true ->
  check_write_access func ctx = func ctx.
Proof.
  intros Hflag. unfold check_write_access. now rewrite Hflag.
Qed.

(** Every mutating tool is its wrapped function behind the gate. *)
Lemma invoke_mutating_gated (ctx : Context) (c : mutating_call) :
  exists func, invoke_mutating ctx c = check_write_access func ctx.
Proof.
  destruct c; cbn [invoke_mutating];
    unfold create_testcase, update_testcase, delete_testcase, create_testplan,
           create_testrun, create_testresult, add_test_step,
           add_multiple_test_steps;
    eexists; reflexivity.
Qed.

(** C1.  While the Write-Access Flag is false, each of the eight mutating
    tools returns an envelope with success = false and an error that says
    read-only mode, and the backend receives no call: the calls it has
    received are the same after the invocation as before. *)
Theorem read_only_mode_denies (ctx : Context) (c : mutating_call) (w : world) :
  write_access_flag ctx = false ->
  exists envelope w',
    invoke_mutating ctx c w = (Ok envelope, w')
    /\ success envelope = Some (JBool false)
    /\ error_contains "read-only mode" envelope = true
    /\ backend_calls w' = backend_calls w.
Proof.
  intros Hflag. destruct (invoke_mutating_gated ctx c) as [func ->].
  rewrite (gate_closed func ctx w Hflag).
  eexists _, _. split; [reflexivity|]. repeat split.
Qed.

(** ** The latest result of a test case *)

(** C10.  When the backend has no latest result for the test case (it
    answers None rather than raising), [get_testcase_latest_result] returns
    success = true with a null test_result and the message "No results
    found"; the absence is not an error. *)
Theorem no_latest_result_is_a_success
  (ctx : Context) (zephyr : ZephyrFetcher) (test_case_key : string) (w : world) :
  zephyr_fetcher ctx = Ok zephyr ->
  zf_get_testcase_latest_result zephyr test_case_key = Ok None ->
  get_testcase_latest_result ctx test_case_key w
  = (Ok [("success", JBool true); ("test_result", JNull);
         ("message", JStr "No results found")],
     after_call w (Call_get_testcase_latest_result test_case_key)).
Proof.
  intros Hctx Hnone.
  unfold get_testcase_latest_result, get_testcase_latest_result_try. run.
  rewrite Hctx. cbn. now rewrite Hnone.
Qed.

(** ** Batches of steps *)

Lemma build_step_requests_length (items : list json) :
  forall i acc requests,
    build_step_requests i items acc = inr requests ->
    List.length requests = (List.length acc + List.length items)%nat.
Proof.
  induction items as [|item items IH]; intros i acc requests Hbuild;
    simpl in Hbuild.
  - injection Hbuild as <-. simpl. lia.
  - match type of Hbuild with
    | match ?b with Ok _ => _ | Raise _ => _ end = _ => destruct b; [|discriminate]
    end.
    apply IH in Hbuild. rewrite Hbuild, length_app. simpl. lia.
Qed.

(** C5.  When the steps decode to a list, every element yields a request,
    and the backend answers with the steps it created, the tool returns
    success = true, total_requested the number of requests (one per
    element) and total_created the number of created steps, whatever the
    two numbers are: fewer steps created than requested is not an error. *)
Theorem partial_batch_is_a_success
  (ctx : Context) (zephyr : ZephyrFetcher) (issue_id project_id steps : string)
  (items : list json) (requests : list TestStepRequest)
  (created : list entity) (w : world) :
  write_access_flag ctx = true ->
  zephyr_fetcher ctx = Ok zephyr ->
  json_loads steps = Ok (JList items) ->
  build_step_requests 0 items [] = inr requests ->
  zf_add_multiple_test_steps zephyr issue_id project_id requests = Ok created ->
  exists envelope,
    add_multiple_test_steps ctx issue_id project_id steps w
    = (Ok envelope,
       after_call w (Call_add_multiple_test_steps issue_id project_id requests))
    /\ success envelope = Some (JBool true)
    /\ error envelope = None
    /\ dict_get envelope "total_requested"
       = Some (JInt (Z.of_nat (List.length requests)))
    /\ dict_get envelope "total_created"
       = Some (JInt (Z.of_nat (List.length created)))
    /\ List.length requests = List.length items.
Proof.
  intros Hflag Hctx Hloads Hbuild Hcreated.
  unfold add_multiple_test_steps. rewrite (gate_opened _ ctx Hflag).
  unfold add_multiple_test_steps__wrapped, add_multiple_test_steps_try. run.
  rewrite Hctx. cbn. rewrite Hloads, Hbuild. cbn. rewrite Hcreated.
  eexists. split; [reflexivity|]. repeat split.
  now rewrite (build_step_requests_length items 0 [] requests Hbuild).
Qed.




(** The loop stops at the first element from which no request can be
    built: every element before it yields a request. *)
Lemma build_step_requests_first_failure (items : list json) :
  forall i0 acc i e,
    build_step_requests i0 items acc = inl (i, e) ->
    exists before item after,
      items = (before ++ item :: after)%list
      /\ i = (i0 + List.length before)%nat
      /\ Forall (fun x => exists r, build_step_request x = Ok r) before
      /\ build_step_request item = Raise e.
Proof.
  induction items as [|item items IH]; intros i0 acc i e Hbuild;
    simpl in Hbuild; [discriminate|].
  destruct (build_step_request item) as [r|e'] eqn:Hitem.
  - apply IH in Hbuild as (before & item' & after & -> & -> & Hbefore & Hfail).
    exists (item :: before), item', after. simpl.
    repeat split; [lia | | assumption].
    constructor; [now exists r | assumption].
  - injection Hbuild as <- <-. exists [], item, items. simpl.
    repeat split; [lia | constructor | assumption].
Qed.

(** A batch with such an element is rejected as a whole, with the index of
    the element in the error, and the backend receives nothing. *)
Lemma invalid_element_rejected
  (ctx : Context) (zephyr : ZephyrFetcher) (issue_id project_id steps : string)
  (items : list json) (i : nat) (e : exn) (w : world) :
  zephyr_fetcher ctx = Ok zephyr ->
  json_loads steps = Ok (JList items) ->
  build_step_requests 0 items [] = inl (i, e) ->
  add_multiple_test_steps__wrapped issue_id project_id steps ctx w
  = (Ok [("success", JBool false);
         ("error", JStr ("Invalid step data at index " ++ str_of_nat i
                         ++ ": " ++ exn_str e));
         ("issue_id", JStr issue_id);
         ("project_id", JStr project_id)], w).
Proof.
  intros Hctx Hloads Hbuild.
  unfold add_multiple_test_steps__wrapped, add_multiple_test_steps_try. run.
  rewrite Hctx. cbn. now rewrite Hloads, Hbuild.
Qed.

(** An element without the key "step" is read as the same element with an
    empty step: the loop cannot tell the two apart, whatever the request
    model accepts. *)
Lemma missing_step_reads_as_empty (d : dict) :
  dict_get d "step" = None ->
  build_step_request (JDict d)
  = build_step_request (JDict (("step", JStr "") :: d)).
Proof.
  intros Hstep. unfold build_step_request, step_data_get.
  cbn [dict_get String.eqb Ascii.eqb Bool.eqb]. now rewrite Hstep.
Qed.

Lemma build_step_requests_stops (before : list json) :
  forall i0 acc item after e,
    Forall (fun x => exists r, build_step_request x = Ok r) before ->
    build_step_request item = Raise e ->
    build_step_requests i0 (before ++ item :: after) acc
    = inl ((i0 + List.length before)%nat, e).
Proof.
  induction before as [|x before IH]; intros i0 acc item after e Hbefore Hitem;
    simpl.
  - rewrite Hitem. do 2 f_equal. lia.
  - apply Forall_cons in Hbefore as [[r Hx] Hbefore]. rewrite Hx.
    rewrite (IH (S i0) _ item after e Hbefore Hitem). do 2 f_equal. lia.
Qed.



(** ** Not-found faults of the get tools *)

Lemma contains_app (sub p s : string) :
  contains sub s = true -> contains sub (p ++ s) = true.
Proof.
  intros Hs. induction p as [|a p IH]; simpl; [assumption|].
  rewrite IH. apply orb_true_r.
Qed.

(** C6, amended.  When the backend raises a not-found fault on the call of
    a get tool ([get_testcase], [get_testplan], [get_testrun],
    [get_testrun_results]), the envelope has success = false and nothing
    but an error: a text that says not found for the kind of entity,
    followed by the rendering of the fault.  The tool adds no key of its
    own: the key of the request is in the error when the fault's own text
    carries it. *)
Theorem not_found_renders_the_fault
  (ctx : Context) (zephyr : ZephyrFetcher) (t : get_tool) (key : string)
  (fields : option string) (e : exn) (w : world) :
  zephyr_fetcher ctx = Ok zephyr ->
  backend_get zephyr t key fields = Raise e ->
  isinstance e MCPAtlassianNotFoundError = true ->
  invoke_reading ctx (get_call t key fields) w
  = (Ok [("success", JBool false);
         ("error", JStr (not_found_prefix t ++ exn_str e))],
     after_call w (backend_get_call t key fields))
  /\ contains "not found" (not_found_prefix t ++ exn_str e) = true
  /\ (contains key (exn_str e) = true ->
      contains key (not_found_prefix t ++ exn_str e) = true).
Proof.
  intros Hctx Hget He. split; [|split].
  - destruct t; cbn [get_call invoke_reading backend_get backend_get_call] in *;
      unfold get_testcase, get_testcase_try, get_testplan, get_testplan_try,
             get_testrun, get_testrun_try, get_testrun_results,
             get_testrun_results_try; run; rewrite Hctx; cbn;
      match type of Hget with
      | forget ?r = _ => destruct r; [discriminate|]
      end; injection Hget as ->; cbn; now rewrite He.
  - destruct t; reflexivity.
  - apply contains_app.
Qed.

(** ** Unexpected and authentication faults *)


Lemma authentication_not_value_error (e : exn) :
  is_authentication e = true -> isinstance e ValueError = false.
Proof.
  unfold is_authentication, isinstance. now destruct (exn_type e).
Qed.

#[local] Ltac unfold_tools :=
  unfold get_testcase, search_testcases, get_testplan, search_testplans,
         get_testrun, search_testruns, get_testcase_latest_result,
         get_testrun_results, get_test_steps,
         create_testcase, update_testcase, delete_testcase, create_testplan,
         create_testrun, create_testresult, add_test_step,
         add_multiple_test_steps,
         create_testcase__wrapped, update_testcase__wrapped,
         delete_testcase__wrapped, create_testplan__wrapped,
         create_testrun__wrapped, create_testresult__wrapped,
         add_test_step__wrapped, add_multiple_test_steps__wrapped.


(** C8, amended.  When [get_test_steps], [add_test_step] or
    [add_multiple_test_steps] ends in an authentication fault, the envelope
    has success = false and, as its error, the rendering str(e) of the
    fault as it is, with the issue and the project; the prefix
    "Authentication/Permission Error:" is on the one line the tool logs,
    and that line is logged at error severity, the severity of what is
    logged for an unexpected fault. *)
Theorem authentication_fault_renders_the_fault
  (ctx : Context) (c : tool_call) (w : world) (e : exn) (w1 : world) :
  is_step_tool c = true ->
  gate_open ctx c = true ->
  ends_in ctx c w e w1 ->
  is_authentication e = true ->
  invoke ctx c w
  = (Ok [("success", JBool false);
         ("error", JStr (exn_str e));
         ("issue_id", JStr (fst (issue_and_project c)));
         ("project_id", JStr (snd (issue_and_project c)))],
     after_log w1
       [log ERROR (step_tool_name c ++ " failed for issue '"
                   ++ fst (issue_and_project c)
                   ++ "': Authentication/Permission Error: " ++ exn_str e)]).
Proof.
  intros Hstep Hgate Hends Hauth.
  pose proof (authentication_not_value_error e Hauth) as Hve.
  unfold is_authentication in Hauth. unfold ends_in in Hends.
  destruct c as [c|c]; destruct c; try discriminate;
    cbn [gate_open try_block try_block_reading try_block_mutating
         invoke invoke_reading invoke_mutating] in *;
    unfold_tools; rewrite ?(gate_opened _ ctx Hgate);
    unfold try_except; rewrite Hends; rewrite ?Hve, ?Hauth;
    reflexivity.
Qed.

End Tools.

(** ** Concrete runs *)

Import Doubles.
#[local] Existing Instance domain.
#[local] Existing Instance collaborators.

Lemma read_only_mode_denies_witness :
  write_access_flag (read_only obliging) = false
  /\ exists envelope w',
       invoke_mutating (read_only obliging)
         (Add_multiple_test_steps "10001" "10000" three_steps) empty_world
       = (Ok envelope, w')
       /\ success envelope = Some (JBool false)
       /\ error_contains "read-only mode" envelope = true
       /\ backend_calls w' = backend_calls empty_world.
Proof.
  split; [reflexivity|].
  apply (read_only_mode_denies (read_only obliging)
           (Add_multiple_test_steps "10001" "10000" three_steps) empty_world).
  reflexivity.
Defined.

Lemma no_latest_result_is_a_success_witness :
  zf_get_testcase_latest_result obliging "JQA-T1234" = Ok None
  /\ get_testcase_latest_result (read_write obliging) "JQA-T1234" empty_world
     = (Ok [("success", JBool true); ("test_result", JNull);
            ("message", JStr "No results found")],
        after_call empty_world (Call_get_testcase_latest_result "JQA-T1234")).
Proof.
  split; [reflexivity|].
  apply (no_latest_result_is_a_success (read_write obliging) obliging
           "JQA-T1234" empty_world); reflexivity.
Defined.

(** Three well-formed steps of which the backend creates two. *)
Lemma partial_batch_is_a_success_witness :
  exists envelope w',
    add_multiple_test_steps (read_write picky) "10001" "10000" three_steps
                            empty_world
    = (Ok envelope, w')
    /\ success envelope = Some (JBool true)
    /\ dict_get envelope "total_requested" = Some (JInt 3)
    /\ dict_get envelope "total_created" = Some (JInt 2).
Proof.
  edestruct (partial_batch_is_a_success (read_write picky) picky
               "10001" "10000" three_steps)
    with (w := empty_world)
    as (envelope & Hrun & Hsuccess & _ & Hrequested & Hcreated & _);
    [ reflexivity | reflexivity | vm_compute; reflexivity
    | vm_compute; reflexivity | vm_compute; reflexivity | ].
  exists envelope. eexists. split; [exact Hrun|].
  split; [exact Hsuccess|]. split; [exact Hrequested | exact Hcreated].
Defined.


(** An element that is not an object stops the batch at its index. *)
Example number_in_batch_is_rejected :
  add_multiple_test_steps (read_write obliging) "10001" "10000"
                          three_steps_and_a_number empty_world
  = (Ok [("success", JBool false);
         ("error", JStr "Invalid step data at index 2: 'int' object has no attribute 'get'");
         ("issue_id", JStr "10001");
         ("project_id", JStr "10000")],
     empty_world).
Proof. vm_compute. reflexivity. Qed.

(** A not-found fault whose text is the status line of the response: the
    error of [get_testcase] does not contain the key. *)
Lemma not_found_without_key :
  ~ not_found_echoes_key (read_write (failing_with absent))
      The_testcase "JQA-T1234" None empty_world.
Proof.
  intros (envelope & w' & Hrun & _ & _ & Hkey).
  vm_compute in Hrun. injection Hrun as <- <-.
  vm_compute in Hkey. discriminate.
Qed.

Lemma not_found_renders_the_fault_witness :
  isinstance absent MCPAtlassianNotFoundError = true
  /\ invoke_reading (read_write (failing_with absent))
       (get_call The_testcase "JQA-T1234" None) empty_world
     = (Ok [("success", JBool false);
            ("error", JStr (not_found_prefix The_testcase ++ exn_str absent))],
        after_call empty_world (backend_get_call The_testcase "JQA-T1234" None)).
Proof.
  split; [reflexivity|].
  apply (not_found_renders_the_fault (read_write (failing_with absent))
           (failing_with absent) The_testcase "JQA-T1234" None absent
           empty_world); reflexivity.
Defined.



(** A fault whose rendering holds a secret and a frame of the traceback:
    both are in the error the caller receives. *)
Example rendering_reaches_the_caller :
  let envelope :=
    failure_envelope (Read (Get_testcase "JQA-T1" None)) (exn_str leaky) in
  invoke (read_write (failing_with leaky))
         (Read (Get_testcase "JQA-T1" None)) empty_world
  = (Ok envelope,
     after_log (after_call empty_world (Call_get_testcase "JQA-T1" None))
       [exception "Error getting test case JQA-T1" leaky])
  /\ error_contains "s3cr3t" envelope = true
  /\ error_contains "zephyr/client.py, line 88" envelope = true.
Proof. repeat split; vm_compute; reflexivity. Qed.

(** An authentication fault and an unexpected fault in [get_test_steps]:
    the error of the first has no prefix, so the rule fails. *)
Lemma authentication_error_without_prefix :
  ~ exists envelope w_authentication envelope' w_unexpected,
      invoke (read_write (failing_with denied))
             (Read (Get_test_steps "10001" "10000")) empty_world
      = (Ok envelope, w_authentication)
      /\ invoke (read_write (failing_with broken))
                (Read (Get_test_steps "10001" "10000")) empty_world
         = (Ok envelope', w_unexpected)
      /\ authentication_rule envelope (logged w_authentication)
                             (logged w_unexpected).
Proof.
  intros (envelope & wa & envelope' & wu & Hrun & _ & Hprefix & _).
  vm_compute in Hrun. injection Hrun as <- <-.
  vm_compute in Hprefix. discriminate.
Qed.

(** In the same two runs everything is logged at the same severity. *)
Example authentication_fault_logged_as_error :
  List.map levelname
    (logged (snd (invoke (read_write (failing_with denied))
                         (Read (Get_test_steps "10001" "10000")) empty_world)))
  = [ERROR]
  /\ List.map levelname
       (logged (snd (invoke (read_write (failing_with broken))
                            (Read (Get_test_steps "10001" "10000")) empty_world)))
     = [ERROR; ERROR].
Proof. split; vm_compute; reflexivity. Qed.

Lemma authentication_fault_renders_the_fault_witness :
  is_authentication denied = true
  /\ invoke (read_write (failing_with denied))
            (Read (Get_test_steps "10001" "10000")) empty_world
     = (Ok [("success", JBool false);
            ("error", JStr "401 Unauthorized");
            ("issue_id", JStr "10001");
            ("project_id", JStr "10000")],
        after_log (after_call empty_world (Call_get_test_steps "10001" "10000"))
          [log ERROR "get_test_steps failed for issue '10001': Authentication/Permission Error: 401 Unauthorized"]).
Proof.
  split; [reflexivity|].
  apply (authentication_fault_renders_the_fault
           (read_write (failing_with denied))
           (Read (Get_test_steps "10001" "10000")) empty_world denied
           (after_call empty_world (Call_get_test_steps "10001" "10000")));
    reflexivity.
Defined.

End ZephyrSpec.

(** * More on the credential resolver *)

Module EnvironmentMore.
Import PyStr Logging Log Environment EnvironmentSpec.

Section Resolver.
Variable is_cloud : string -> bool.

#[local] Abbreviation part := (service_part is_cloud).

Lemma availability_part (environ : gmap string string) (s : service) :
  availability is_cloud environ s = Some (fst (part environ s)).
Proof.
  destruct s; [apply availability_confluence | apply availability_jira
              | apply availability_zephyr].
Qed.

Lemma mode_lines_part (environ : gmap string string) (s : service) :
  s <> Zephyr ->
  mode_lines is_cloud environ s = snd (part environ s).
Proof.
  destruct s; [intros _; apply mode_lines_confluence
              | intros _; apply mode_lines_jira | congruence].
Qed.

(** With a base URL, the part of a service decides in this order. *)
Lemma part_with_base_url (environ : gmap string string) (s : service) :
  s <> Zephyr ->
  present environ (url_var s) = true ->
  part environ s =
  if client_credentials environ
  then (true, [oauth_3lo_client_credentials s])
  else if provided_access_token environ
  then (true, [oauth_3lo_provided_access_token s])
  else if is_cloud (base_url environ s)
  then if present environ (username_var s) && present environ (api_token_var s)
       then (true, [cloud_basic_token s])
       else (false, [])
  else if present environ (personal_token_var s)
          || (present environ (username_var s)
              && present environ (api_token_var s))
  then (true, [server_pat_or_basic s])
  else (false, []).
Proof.
  intros Hs Hurl. unfold present in *.
  destruct s; [ | | congruence ]; cbn [service_part url_var] in *;
    unfold confluence_part, jira_part, client_credentials,
           provided_access_token, base_url; cbn [url_var username_var
           api_token_var personal_token_var service_name];
    rewrite Hurl; unfold all; cbn [forallb];
    rewrite ?andb_true_r; reflexivity.
Qed.

(** X1.  With a cloud-shaped base URL and neither OAuth variant
    configured, the issue tracker or the wiki is usable exactly when both
    the user name and the API token are present, in the cloud basic mode;
    a personal token is of no use there. *)
Theorem cloud_needs_username_and_token
  (environ : gmap string string) (s : service) :
  s <> Zephyr ->
  present environ (url_var s) = true ->
  client_credentials environ = false ->
  provided_access_token environ = false ->
  is_cloud (base_url environ s) = true ->
  availability is_cloud environ s
  = Some (present environ (username_var s) && present environ (api_token_var s))
  /\ mode_lines is_cloud environ s
     = if present environ (username_var s) && present environ (api_token_var s)
       then [cloud_basic_token s] else [].
Proof.
  intros Hs Hurl Hcc Hat Hcloud.
  rewrite availability_part, (mode_lines_part environ s Hs),
          (part_with_base_url environ s Hs Hurl), Hcc, Hat, Hcloud.
  now destruct (present environ (username_var s)
                && present environ (api_token_var s)).
Qed.

(** X2.  With a base URL that is not cloud-shaped and neither OAuth variant
    configured, the service is usable exactly when a personal token is
    present, or both the user name and the API token, in the server mode. *)
Theorem server_needs_pat_or_basic
  (environ : gmap string string) (s : service) :
  s <> Zephyr ->
  present environ (url_var s) = true ->
  client_credentials environ = false ->
  provided_access_token environ = false ->
  is_cloud (base_url environ s) = false ->
  let usable :=
    present environ (personal_token_var s)
    || (present environ (username_var s) && present environ (api_token_var s)) in
  availability is_cloud environ s = Some usable
  /\ mode_lines is_cloud environ s
     = if usable then [server_pat_or_basic s] else [].
Proof.
  intros Hs Hurl Hcc Hat Hcloud usable. subst usable.
  rewrite availability_part, (mode_lines_part environ s Hs),
          (part_with_base_url environ s Hs Hurl), Hcc, Hat, Hcloud.
  now destruct (present environ (personal_token_var s)
                || (present environ (username_var s)
                    && present environ (api_token_var s))).
Qed.

(** X3.  With a base URL, an access token and the cloud id, but not all
    five client-credential variables, the service is usable in the OAuth
    mode with provided access token, whatever the shape of the URL and
    whatever basic or personal credentials are set. *)
Theorem provided_access_token_second
  (environ : gmap string string) (s : service) :
  s <> Zephyr ->
  present environ (url_var s) = true ->
  client_credentials environ = false ->
  present environ "ATLASSIAN_OAUTH_ACCESS_TOKEN" = true ->
  present environ "ATLASSIAN_OAUTH_CLOUD_ID" = true ->
  availability is_cloud environ s = Some true
  /\ mode_lines is_cloud environ s = [oauth_3lo_provided_access_token s].
Proof.
  intros Hs Hurl Hcc Htoken Hcloud.
  rewrite availability_part, (mode_lines_part environ s Hs),
          (part_with_base_url environ s Hs Hurl), Hcc.
  unfold provided_access_token, all, present in *. cbn [forallb].
  now rewrite Htoken, Hcloud.
Qed.


(** ** What a part depends on *)

#[local] Ltac split_agree H :=
  unfold agree_on in H; cbn [variables_read] in H;
  unfold credential_variables in H;
  cbn [app url_var username_var api_token_var personal_token_var] in H;
  rewrite ?Forall_cons in H;
  repeat match type of H with
         | _ /\ _ => let H1 := fresh "Hvar" in destruct H as [H1 H]
         end.

Lemma part_agree (e1 e2 : gmap string string) (s : service) :
  agree_on (variables_read s) e1 e2 -> part e1 s = part e2 s.
Proof.
  intros Hagree.
  destruct s; split_agree Hagree; cbn [service_part];
    unfold confluence_part, jira_part, zephyr_part, os_getenv,
           os_getenv_default;
    repeat match goal with
           | Hvar : e1 !! _ = e2 !! _ |- _ => rewrite Hvar; clear Hvar
           end;
    reflexivity.
Qed.

Lemma lines_about_part (environ : gmap string string) (s : service) :
  lines_about is_cloud environ s
  = (snd (part environ s)
     ++ (if fst (part environ s) then [] else [not_configured s]))%list.
Proof.
  unfold lines_about. rewrite get_available_services_eq. cbv zeta.
  cbn [snd]. rewrite !List.filter_app.
  pose proof (confluence_part_lines is_cloud environ) as Hc.
  pose proof (jira_part_lines is_cloud environ) as Hj.
  destruct s; cbn [service_part service_name not_configured].
  - rewrite (filter_all _ (snd (confluence_part is_cloud environ))).
    2:{ eapply List.Forall_impl; [|exact Hc]. intros r [_ Hr].
        apply orb_true_iff. left. exact Hr. }
    rewrite (filter_none _ (snd (jira_part is_cloud environ))).
    2:{ eapply List.Forall_impl; [|exact Hj]. intros r [_ Hr].
        apply startswith_app in Hr as [rest ->]. reflexivity. }
    rewrite zephyr_part_eq.
    destruct (fst (confluence_part is_cloud environ)),
             (fst (jira_part is_cloud environ)),
             (present environ "ZEPHYR_API_TOKEN"),
             (present environ "ZEPHYR_BASE_URL"); reflexivity.
  - rewrite (filter_none _ (snd (confluence_part is_cloud environ))).
    2:{ eapply List.Forall_impl; [|exact Hc]. intros r [_ Hr].
        apply startswith_app in Hr as [rest ->]. reflexivity. }
    rewrite (filter_all _ (snd (jira_part is_cloud environ))).
    2:{ eapply List.Forall_impl; [|exact Hj]. intros r [_ Hr].
        apply orb_true_iff. left. exact Hr. }
    rewrite zephyr_part_eq.
    destruct (fst (confluence_part is_cloud environ)),
             (fst (jira_part is_cloud environ)),
             (present environ "ZEPHYR_API_TOKEN"),
             (present environ "ZEPHYR_BASE_URL"); reflexivity.
  - rewrite (filter_none _ (snd (confluence_part is_cloud environ))).
    2:{ eapply List.Forall_impl; [|exact Hc]. intros r [_ Hr].
        apply startswith_app in Hr as [rest ->]. reflexivity. }
    rewrite (filter_none _ (snd (jira_part is_cloud environ))).
    2:{ eapply List.Forall_impl; [|exact Hj]. intros r [_ Hr].
        apply startswith_app in Hr as [rest ->]. reflexivity. }
    rewrite zephyr_part_eq.
    destruct (fst (confluence_part is_cloud environ)),
             (fst (jira_part is_cloud environ)),
             (present environ "ZEPHYR_API_TOKEN"),
             (present environ "ZEPHYR_BASE_URL"); reflexivity.
Qed.

(** X4.  What the run says about a service depends on the variables of
    that service alone: two environments that give the same values to the
    variables its part reads give it the same availability and the same
    lines in the log, the warnings of test management included.  In
    particular nothing set for the wiki or for test management changes the
    issue tracker. *)
Theorem service_reads_its_own_variables
  (e1 e2 : gmap string string) (s : service) :
  agree_on (variables_read s) e1 e2 ->
  availability is_cloud e1 s = availability is_cloud e2 s
  /\ lines_about is_cloud e1 s = lines_about is_cloud e2 s.
Proof.
  intros Hagree. rewrite !availability_part, !lines_about_part.
  now rewrite (part_agree e1 e2 s Hagree).
Qed.

(** X5.  Once the base URL of the issue tracker or of the wiki is present,
    ATLASSIAN_OAUTH_ENABLE is not consulted: two environments that agree on
    the base URL and on the credential variables give the service the same
    availability and the same lines, whatever each says about
    ATLASSIAN_OAUTH_ENABLE. *)
Theorem oauth_enable_ignored_with_base_url
  (e1 e2 : gmap string string) (s : service) :
  s <> Zephyr ->
  present e1 (url_var s) = true ->
  agree_on (credential_variables s) e1 e2 ->
  availability is_cloud e1 s = availability is_cloud e2 s
  /\ lines_about is_cloud e1 s = lines_about is_cloud e2 s.
Proof.
  intros Hs Hurl Hagree. rewrite !availability_part, !lines_about_part.
  assert (Hurl2 : present e2 (url_var s) = true).
  { unfold present, os_getenv in *.
    unfold agree_on, credential_variables in Hagree.
    apply Forall_cons in Hagree as [Hvar _]. now rewrite <- Hvar. }
  rewrite (part_with_base_url e1 s Hs Hurl), (part_with_base_url e2 s Hs Hurl2).
  unfold client_credentials, provided_access_token, base_url, present,
         os_getenv, all.
  split_agree Hagree.
  repeat match goal with
         | Hvar : e1 !! _ = e2 !! _ |- _ => rewrite Hvar; clear Hvar
         end.
  now split.
Qed.

(** ** One line per service *)

Lemma tracker_part_shape (environ : gmap string string) (s : service) :
  s <> Zephyr ->
  part environ s = (false, [])
  \/ exists rest,
       part environ s = (true, [info ("Using " ++ service_name s ++ " " ++ rest)]).
Proof.
  intros Hs.
  destruct s; [ | | congruence ]; cbn [service_part service_name];
    unfold confluence_part, jira_part;
    repeat match goal with
           | |- context [if ?b then _ else _] => destruct b eqn:?
           end;
    first [ now left | right; eexists; reflexivity ].
Qed.

(** X6.  The lines the run logs about a service follow its availability.
    About a usable service there is exactly one line, the "Using <Service>
    ..." line of its mode.  About a service that is not usable the last
    line is the closing "<Service> is not configured ..." line; for the
    issue tracker and the wiki it is the only one, for test management it
    comes after the warnings of the run, one warning when exactly one of
    its two variables is present and none otherwise. *)
Theorem lines_follow_availability
  (environ : gmap string string) (s : service) :
  exists usable,
    availability is_cloud environ s = Some usable
    /\ if usable
       then exists line,
              lines_about is_cloud environ s = [line]
              /\ startswith ("Using " ++ service_name s ++ " ") (message line)
                 = true
       else lines_about is_cloud environ s
            = ((match s with
                | Zephyr => warnings is_cloud environ
                | _ => []
                end) ++ [not_configured s])%list.
Proof.
  rewrite availability_part, lines_about_part.
  destruct s.
  - destruct (tracker_part_shape environ Confluence) as [-> | [rest ->]];
      [discriminate | | ]; eexists; (split; [reflexivity|]);
      [reflexivity | eexists; split; reflexivity].
  - destruct (tracker_part_shape environ Jira) as [-> | [rest ->]];
      [discriminate | | ]; eexists; (split; [reflexivity|]);
      [reflexivity | eexists; split; reflexivity].
  - cbn [service_part]. rewrite warnings_zephyr, zephyr_part_eq.
    destruct (present environ "ZEPHYR_API_TOKEN"),
             (present environ "ZEPHYR_BASE_URL");
      eexists; (split; [reflexivity|]);
      first [reflexivity | eexists; split; reflexivity].
Qed.

End Resolver.

(** ** Concrete runs *)

#[local] Ltac lookups_agree :=
  unfold agree_on, variables_read, credential_variables;
  cbn [app url_var username_var api_token_var personal_token_var];
  repeat (apply List.Forall_cons; [vm_compute; reflexivity|]);
  apply List.Forall_nil.

Lemma cloud_needs_username_and_token_witness :
  Doubles.is_atlassian_cloud_url (base_url Doubles.cloud_with_basic Jira) = true
  /\ availability Doubles.is_atlassian_cloud_url Doubles.cloud_with_basic Jira
     = Some true
  /\ mode_lines Doubles.is_atlassian_cloud_url Doubles.cloud_with_basic Jira
     = [cloud_basic_token Jira].
Proof.
  split; [vm_compute; reflexivity|].
  apply (cloud_needs_username_and_token Doubles.is_atlassian_cloud_url
           Doubles.cloud_with_basic Jira);
    [discriminate | vm_compute; reflexivity ..].
Defined.

Lemma server_needs_pat_or_basic_witness :
  Doubles.is_atlassian_cloud_url (base_url Doubles.server_with_pat Confluence)
  = false
  /\ availability Doubles.is_atlassian_cloud_url Doubles.server_with_pat
                  Confluence
     = Some true
  /\ mode_lines Doubles.is_atlassian_cloud_url Doubles.server_with_pat
                Confluence
     = [server_pat_or_basic Confluence].
Proof.
  split; [vm_compute; reflexivity|].
  apply (server_needs_pat_or_basic Doubles.is_atlassian_cloud_url
           Doubles.server_with_pat Confluence);
    [discriminate | vm_compute; reflexivity ..].
Defined.

Lemma provided_access_token_second_witness :
  client_credentials Doubles.with_access_token = false
  /\ availability Doubles.is_atlassian_cloud_url Doubles.with_access_token Jira
     = Some true
  /\ mode_lines Doubles.is_atlassian_cloud_url Doubles.with_access_token Jira
     = [oauth_3lo_provided_access_token Jira].
Proof.
  split; [vm_compute; reflexivity|].
  apply (provided_access_token_second Doubles.is_atlassian_cloud_url
           Doubles.with_access_token Jira);
    [discriminate | vm_compute; reflexivity ..].
Defined.

Lemma service_reads_its_own_variables_witness :
  availability Doubles.is_atlassian_cloud_url Doubles.cloud_with_basic Jira
  = availability Doubles.is_atlassian_cloud_url Doubles.cloud_with_neighbours
                 Jira
  /\ lines_about Doubles.is_atlassian_cloud_url Doubles.cloud_with_basic Jira
     = lines_about Doubles.is_atlassian_cloud_url Doubles.cloud_with_neighbours
                   Jira.
Proof.
  apply (service_reads_its_own_variables Doubles.is_atlassian_cloud_url
           Doubles.cloud_with_basic Doubles.cloud_with_neighbours Jira).
  lookups_agree.
Defined.

Lemma oauth_enable_ignored_with_base_url_witness :
  oauth_enable Doubles.cloud_with_basic = false
  /\ oauth_enable Doubles.cloud_with_oauth_enable = true
  /\ availability Doubles.is_atlassian_cloud_url Doubles.cloud_with_basic Jira
     = availability Doubles.is_atlassian_cloud_url
                    Doubles.cloud_with_oauth_enable Jira
  /\ lines_about Doubles.is_atlassian_cloud_url Doubles.cloud_with_basic Jira
     = lines_about Doubles.is_atlassian_cloud_url
                   Doubles.cloud_with_oauth_enable Jira.
Proof.
  split; [vm_compute; reflexivity|]. split; [vm_compute; reflexivity|].
  apply (oauth_enable_ignored_with_base_url Doubles.is_atlassian_cloud_url
           Doubles.cloud_with_basic Doubles.cloud_with_oauth_enable Jira);
    [discriminate | vm_compute; reflexivity | lookups_agree].
Defined.

End EnvironmentMore.

(** * More on the Zephyr tools *)

Module ZephyrMore.
Import PyStr Logging Exc Log Json Zephyr.
Local Open Scope py_scope.

#[local] Ltac run :=
  unfold get_zephyr_fetcher, logger_exception, logger_log, logger_warning,
         after_call, after_log in *;
  unfold try_except, bind, ret, raise, lift, call, emit in *;
  cbv beta iota zeta in *.

#[local] Ltac unfold_tools :=
  unfold get_testcase, search_testcases, get_testplan, search_testplans,
         get_testrun, search_testruns, get_testcase_latest_result,
         get_testrun_results, get_test_steps,
         create_testcase, update_testcase, delete_testcase, create_testplan,
         create_testrun, create_testresult, add_test_step,
         add_multiple_test_steps,
         create_testcase__wrapped, update_testcase__wrapped,
         delete_testcase__wrapped, create_testplan__wrapped,
         create_testrun__wrapped, create_testresult__wrapped,
         add_test_step__wrapped, add_multiple_test_steps__wrapped.

#[local] Ltac unfold_try_blocks :=
  unfold get_testcase_try, search_testcases_try, get_testplan_try,
         search_testplans_try, get_testrun_try, search_testruns_try,
         get_testcase_latest_result_try, get_testrun_results_try,
         get_test_steps_try, create_testcase_try, update_testcase_try,
         delete_testcase_try, create_testplan_try, create_testrun_try,
         create_testresult_try, add_test_step_try,
         add_multiple_test_steps_try.

(** Case analysis on everything a tool asks of its collaborators. *)
#[local] Ltac ask_collaborators :=
  repeat (match goal with
          | |- context [match ?x with _ => _ end] =>
              lazymatch x with
              | context [match _ with _ => _ end] => fail
              | _ => destruct x eqn:?
              end
          end; cbv beta iota zeta; cbn [backend_calls logged]).

Section Tools.
Context `{Collaborators}.

(** ** The shape of every outcome *)

(** Whatever the collaborators answer, an invocation ends in one of two
    ways: a success, after exactly one backend call and without a line in
    the log; or a failure with an error string, after at most one backend
    call. *)
Lemma invoke_outcome (ctx : Context) (c : tool_call) (w : world) :
  exists envelope w',
    invoke ctx c w = (Ok envelope, w')
    /\ ((success envelope = Some (JBool true)
         /\ error envelope = None
         /\ logged w' = logged w
         /\ exists bc, backend_calls w' = (backend_calls w ++ [bc])%list)
        \/ (success envelope = Some (JBool false)
            /\ (exists msg, error envelope = Some (JStr msg))
            /\ at_most_one_call w w')).
Proof.
  unfold at_most_one_call.
  destruct c as [c|c]; destruct c;
    cbn [invoke invoke_reading invoke_mutating];
    unfold_tools; unfold check_write_access; unfold_try_blocks; run;
    ask_collaborators;
    eexists _, _; (split; [reflexivity|]); cbn;
    first [ left; repeat split; eexists; reflexivity
          | right; repeat split;
            [ eexists; reflexivity
            | first [ left; reflexivity | right; eexists; reflexivity ] ] ].
Qed.


(** X7.  The function of each tool, for a mutating tool the function under
    [@check_write_access], lets no [Exception] out: whatever its arguments,
    and whatever the registry, [json.loads], the request model and the
    backend return or raise, it returns an envelope, in which [success] is
    a boolean and there is an [error] string exactly when it is false. *)
Theorem every_exception_becomes_an_envelope
  (ctx : Context) (c : tool_call) (w : world) :
  exists envelope w',
    tool_body ctx c w = (Ok envelope, w')
    /\ match success envelope, error envelope with
       | Some (JBool true), None => True
       | Some (JBool false), Some (JStr _) => True
       | _, _ => False
       end.
Proof.
  destruct c as [c|c]; destruct c;
    cbn [tool_body invoke_reading];
    unfold_tools; unfold_try_blocks; run;
    ask_collaborators;
    eexists _, _; (split; [reflexivity|]); exact I.
Qed.

(** X8.  An invocation reaches the backend at most once: after it the
    backend has received the calls it had received before, and at most one
    more.  Nothing is retried. *)
Theorem at_most_one_backend_call (ctx : Context) (c : tool_call) (w : world) :
  at_most_one_call w (snd (invoke ctx c w)).
Proof.
  destruct (invoke_outcome ctx c w)
    as (envelope & w' & -> & [(_ & _ & _ & bc & Hbc) | (_ & _ & Hcalls)]);
    cbn [snd]; [right; now exists bc | exact Hcalls].
Qed.

(** X9.  An invocation that returns success = true has made exactly one
    backend call and has written nothing to the log. *)
Theorem success_after_one_call_and_no_log
  (ctx : Context) (c : tool_call) (w : world) (envelope : dict) (w' : world) :
  invoke ctx c w = (Ok envelope, w') ->
  success envelope = Some (JBool true) ->
  logged w' = logged w
  /\ exists bc, backend_calls w' = (backend_calls w ++ [bc])%list.
Proof.
  intros Hrun Hsuccess.
  destruct (invoke_outcome ctx c w)
    as (envelope0 & w0 & Hrun0 & [(_ & _ & Hlog & Hbc) | (Hs & _)]);
    rewrite Hrun in Hrun0; injection Hrun0 as <- <-;
    [now split | congruence].
Qed.

(** ** Reading in read-only mode *)

(** X10.  A reading tool does not look at the Write-Access Flag: in two
    contexts with the same client it behaves the same. *)
Theorem reading_ignores_the_flag (ctx ctx' : Context) (c : reading_call) :
  zephyr_fetcher ctx = zephyr_fetcher ctx' ->
  invoke_reading ctx c = invoke_reading ctx' c.
Proof.
  intros Hsame. destruct c; cbn [invoke_reading]; unfold_tools;
    unfold_try_blocks; unfold get_zephyr_fetcher; now rewrite Hsame.
Qed.

(** ** Faults before the backend is reached *)

Lemma contains_refl (s : string) : contains s s = true.
Proof.
  assert (Hstart : forall t, startswith t t = true).
  { induction t as [|a t IH]; simpl; [reflexivity|].
    now rewrite Ascii.eqb_refl, IH. }
  destruct s; simpl; [reflexivity|].
  now rewrite Ascii.eqb_refl, Hstart.
Qed.

Lemma contains_after (p s : string) : contains s (p ++ s) = true.
Proof. apply ZephyrSpec.contains_app, contains_refl. Qed.

(** X11.  When there is no Zephyr client (the registry raises), a tool that
    is past the gate fails with the text of that fault in its error and the
    backend receives no call. *)
Theorem no_client_no_call
  (ctx : Context) (c : tool_call) (w : world) (e : exn) :
  gate_open ctx c = true ->
  zephyr_fetcher ctx = Raise e ->
  exists envelope w',
    invoke ctx c w = (Ok envelope, w')
    /\ success envelope = Some (JBool false)
    /\ error_contains (exn_str e) envelope = true
    /\ backend_calls w' = backend_calls w.
Proof.
  intros Hgate Hctx.
  destruct c as [c|c]; destruct c;
    cbn [gate_open invoke invoke_reading invoke_mutating] in *;
    unfold_tools; rewrite ?(ZephyrSpec.gate_opened _ ctx Hgate);
    unfold_try_blocks; run; rewrite Hctx; cbv beta iota zeta;
    ask_collaborators;
    eexists _, _; (split; [reflexivity|]);
    (split; [reflexivity|]);
    (split; [|reflexivity]);
    unfold error_contains, error;
    cbn [dict_get String.eqb Ascii.eqb Bool.eqb];
    first [ apply contains_refl | apply contains_after ].
Qed.

(** X12.  When the JSON text given to [create_testcase], [update_testcase],
    [create_testplan], [create_testrun] or [create_testresult] cannot be
    decoded, the tool fails with "Failed to ...: " and the text of the
    decoding fault, logs the fault with its traceback, and the backend
    receives no call. *)
Theorem undecodable_payload_no_call
  (ctx : Context) (zephyr : ZephyrFetcher) (c : mutating_call) (text : string)
  (e : exn) (w : world) :
  write_access_flag ctx = true ->
  zephyr_fetcher ctx = Ok zephyr ->
  json_payload c = Some text ->
  json_loads text = Raise e ->
  isinstance e JSONDecodeError = true ->
  exists msg,
    invoke_mutating ctx c w
    = (Ok [("success", JBool false);
           ("error", JStr (failure_prefix (Write c) ++ exn_str e))],
       after_log w [exception msg e]).
Proof.
  intros Hgate Hctx Hpayload Hloads Hclass.
  assert (Hnf : isinstance e MCPAtlassianNotFoundError = false).
  { unfold isinstance in *. now destruct (exn_type e). }
  destruct c; try discriminate; injection Hpayload as ->;
    cbn [invoke_mutating failure_prefix];
    unfold_tools; rewrite (ZephyrSpec.gate_opened _ ctx Hgate);
    unfold_try_blocks; run; rewrite Hctx; cbv beta iota zeta;
    rewrite Hloads; cbv beta iota zeta; rewrite ?Hnf;
    eexists; reflexivity.
Qed.

(** X13.  When the request model rejects the step of [add_test_step] with a
    fault that is not an authentication fault, the tool fails with the text
    of that fault as its error, logs the fault with its traceback and then
    a line with the generic text, and the backend receives no call. *)
Theorem rejected_step_no_call
  (ctx : Context) (zephyr : ZephyrFetcher) (issue_id project_id step : string)
  (data result : option string) (e : exn) (w : world) :
  write_access_flag ctx = true ->
  zephyr_fetcher ctx = Ok zephyr ->
  TestStepRequest_init (JStr step) (of_option data) (of_option result)
  = Raise e ->
  is_authentication e = false ->
  add_test_step ctx issue_id project_id step data result w
  = (Ok (failure_envelope
           (Write (Add_test_step issue_id project_id step data result))
           (exn_str e)),
     after_log w
       [exception ("Unexpected error in add_test_step for issue '"
                   ++ issue_id ++ "':") e;
        log ERROR ("add_test_step failed for issue '" ++ issue_id
                   ++ "': An unexpected error occurred while adding the test step.")]).
Proof.
  intros Hgate Hctx Hinit Hauth. unfold is_authentication in Hauth.
  unfold_tools; rewrite (ZephyrSpec.gate_opened _ ctx Hgate).
  unfold_try_blocks; run. rewrite Hctx. cbv beta iota zeta.
  rewrite Hinit. cbv beta iota zeta. rewrite Hauth.
  cbv beta iota zeta. cbn [backend_calls logged].
  rewrite <- List.app_assoc. reflexivity.
Qed.

(** ** Lists *)

(** X14.  When the backend answers a list to [search_testcases],
    [search_testplans], [search_testruns] or [get_testrun_results], the
    envelope carries the simplified entities in the order of the answer and
    [count] is their number; the empty list is a success with count 0. *)
Theorem list_with_its_count
  (ctx : Context) (zephyr : ZephyrFetcher) (c : reading_call)
  (found : list entity) (key : string) (w : world) :
  zephyr_fetcher ctx = Ok zephyr ->
  listing zephyr c = Some (Ok found, key) ->
  invoke_reading ctx c w
  = (Ok [("success", JBool true);
         (key, JList (List.map to_simplified_dict found));
         ("count", JInt (Z.of_nat (List.length found)))],
     after_call w (backend_call_of c)).
Proof.
  intros Hctx Hlist.
  destruct c; try discriminate; cbn [listing] in Hlist;
    injection Hlist as Hanswer <-;
    cbn [invoke_reading backend_call_of]; unfold_tools; unfold_try_blocks;
    run; rewrite Hctx; cbv beta iota zeta; rewrite Hanswer;
    unfold len, simplified; now rewrite length_map.
Qed.

(** ** Batches of steps *)

(** X15.  A batch is rejected at its first invalid element: when every
    element before position i yields a request and the element at position
    i does not, the call fails with "Invalid step data at index i: " and the
    text of the fault of that element, whatever follows it, and neither the
    backend nor the log receives anything. *)
Theorem batch_rejected_at_first_invalid_element
  (ctx : Context) (zephyr : ZephyrFetcher) (issue_id project_id steps : string)
  (before : list json) (item : json) (after : list json) (e : exn) (w : world) :
  write_access_flag ctx = true ->
  zephyr_fetcher ctx = Ok zephyr ->
  json_loads steps = Ok (JList (before ++ item :: after)) ->
  Forall (fun x => exists r, build_step_request x = Ok r) before ->
  build_step_request item = Raise e ->
  add_multiple_test_steps ctx issue_id project_id steps w
  = (Ok [("success", JBool false);
         ("error", JStr ("Invalid step data at index "
                         ++ str_of_nat (List.length before)
                         ++ ": " ++ exn_str e));
         ("issue_id", JStr issue_id);
         ("project_id", JStr project_id)], w).
Proof.
  intros Hgate Hctx Hloads Hbefore Hitem.
  unfold add_multiple_test_steps.
  rewrite (ZephyrSpec.gate_opened _ ctx Hgate).
  apply (ZephyrSpec.invalid_element_rejected ctx zephyr issue_id project_id
           steps (before ++ item :: after) (List.length before) e w Hctx Hloads).
  apply (ZephyrSpec.build_step_requests_stops before 0 [] item after e
           Hbefore Hitem).
Qed.

Lemma build_step_requests_all (items : list json) :
  forall i acc requests,
    build_step_requests i items acc = inr requests
    <-> exists built,
          requests = (acc ++ built)%list /\ built_in_order items built.
Proof.
  unfold built_in_order.
  induction items as [|item items IH]; intros i acc requests; simpl.
  - split.
    + intros [= <-]. exists []. split; [now rewrite app_nil_r | constructor].
    + intros (built & -> & Hbuilt). apply Forall2_nil_inv_l in Hbuilt as ->.
      now rewrite app_nil_r.
  - destruct (build_step_request item) as [r|e] eqn:Hitem.
    + rewrite IH. split.
      * intros (built & -> & Hbuilt). exists (r :: built).
        split; [now rewrite <- List.app_assoc | now constructor].
      * intros (built & -> & Hbuilt).
        apply Forall2_cons_inv_l in Hbuilt as (r' & built' & Hr & Hbuilt & ->).
        rewrite Hitem in Hr. injection Hr as <-.
        exists built'. split; [now rewrite <- List.app_assoc | assumption].
    + split; [discriminate|].
      intros (built & _ & Hbuilt).
      apply Forall2_cons_inv_l in Hbuilt as (r' & built' & Hr & _).
      rewrite Hitem in Hr. discriminate.
Qed.

(** X16.  The loop of [add_multiple_test_steps] ends with a list of
    requests exactly when every element of the batch yields a request, and
    then the list holds the request of each element, in the order of the
    batch: nothing is dropped, added or reordered. *)
Theorem requests_follow_the_batch
  (items : list json) (requests : list TestStepRequest) :
  build_step_requests 0 items [] = inr requests
  <-> built_in_order items requests.
Proof.
  rewrite build_step_requests_all. cbn [app]. split.
  - now intros (built & -> & Hbuilt).
  - intros Hbuilt. now exists requests.
Qed.

(** An element of a batch that is not a JSON object (a number, a string, a
    list, true, false, null) never yields a request, whatever the request
    model accepts: it fails on [.get] with the text "'<type>' object has
    no attribute 'get'". *)
Lemma element_must_be_an_object (item : json) :
  is_object item = false ->
  build_step_request item = Raise (no_attribute_get item).
Proof.
  intros Hitem. now destruct item.
Qed.

(** X17.  A batch that decodes to the empty array is not rejected: the
    backend is called once with no step, and when it answers the tool
    returns success = true with total_requested = 0. *)
Theorem empty_batch_is_submitted
  (ctx : Context) (zephyr : ZephyrFetcher) (issue_id project_id steps : string)
  (created : list entity) (w : world) :
  write_access_flag ctx = true ->
  zephyr_fetcher ctx = Ok zephyr ->
  json_loads steps = Ok (JList []) ->
  zf_add_multiple_test_steps zephyr issue_id project_id [] = Ok created ->
  add_multiple_test_steps ctx issue_id project_id steps w
  = (Ok [("success", JBool true);
         ("test_steps", JList (List.map to_simplified_dict created));
         ("total_requested", JInt 0);
         ("total_created", JInt (Z.of_nat (List.length created)));
         ("issue_id", JStr issue_id);
         ("project_id", JStr project_id)],
     after_call w (Call_add_multiple_test_steps issue_id project_id [])).
Proof.
  intros Hgate Hctx Hloads Hcreated.
  unfold_tools; rewrite (ZephyrSpec.gate_opened _ ctx Hgate).
  unfold_try_blocks; run. rewrite Hctx. cbv beta iota zeta.
  rewrite Hloads. cbn [build_step_requests]. cbv beta iota zeta.
  rewrite Hcreated. reflexivity.
Qed.

(** ** The other branches of the fault handlers *)

(** X18.  [get_test_steps] treats a [ValueError] whose text contains "not
    found", in any case, as an expected fault: the envelope has the text of
    the fault as its error, with the issue and the project, and the one
    line logged is a warning, without the traceback. *)
Theorem get_test_steps_not_found_is_a_warning
  (ctx : Context) (issue_id project_id : string) (w : world) (e : exn)
  (w1 : world) :
  ends_in ctx (Read (Get_test_steps issue_id project_id)) w e w1 ->
  isinstance e ValueError = true ->
  contains "not found" (lower (exn_str e)) = true ->
  get_test_steps ctx issue_id project_id w
  = (Ok [("success", JBool false);
         ("error", JStr (exn_str e));
         ("issue_id", JStr issue_id);
         ("project_id", JStr project_id)],
     after_log w1
       [log WARNING ("get_test_steps failed for issue '" ++ issue_id ++ "': "
                     ++ exn_str e)]).
Proof.
  intros Hends Hclass Htext. unfold ends_in in Hends.
  cbn [try_block try_block_reading] in Hends.
  unfold get_test_steps, try_except. rewrite Hends. run.
  now rewrite Hclass, Htext.
Qed.

(** X19.  In the six tools that have a clause for it ([get_testcase],
    [get_testplan], [get_testrun], [get_testrun_results],
    [update_testcase], [delete_testcase]) a not-found fault gives an
    envelope with "<Entity> not found: " and the text of the fault, and
    nothing at all is written to the log. *)
Theorem not_found_is_not_logged
  (ctx : Context) (c : tool_call) (w : world) (e : exn) (w1 : world) :
  has_not_found_clause c = true ->
  gate_open ctx c = true ->
  ends_in ctx c w e w1 ->
  isinstance e MCPAtlassianNotFoundError = true ->
  invoke ctx c w
  = (Ok [("success", JBool false);
         ("error", JStr (not_found_text c ++ exn_str e))], w1).
Proof.
  intros Hclause Hgate Hends Hclass. unfold ends_in in Hends.
  destruct c as [c|c]; destruct c; try discriminate;
    cbn [gate_open try_block try_block_reading try_block_mutating
         invoke invoke_reading invoke_mutating not_found_text] in *;
    unfold_tools; rewrite ?(ZephyrSpec.gate_opened _ ctx Hgate);
    unfold try_except; rewrite Hends; now rewrite Hclass.
Qed.

(** X20.  Outside the three test-step tools no fault is told apart but the
    not-found fault of the six tools above: any other fault, an
    authentication fault included, and a not-found fault in a tool without
    the clause, gives "Failed to ...: " with the text of the fault and is
    logged once, at error severity, with its traceback. *)
Theorem other_faults_are_failures
  (ctx : Context) (c : tool_call) (w : world) (e : exn) (w1 : world) :
  is_step_tool c = false ->
  gate_open ctx c = true ->
  ends_in ctx c w e w1 ->
  has_not_found_clause c && isinstance e MCPAtlassianNotFoundError = false ->
  exists msg,
    invoke ctx c w
    = (Ok [("success", JBool false);
           ("error", JStr (failure_prefix c ++ exn_str e))],
       after_log w1 [exception msg e]).
Proof.
  intros Hstep Hgate Hends Hclass. unfold ends_in in Hends.
  destruct c as [c|c]; destruct c; try discriminate;
    cbn [gate_open try_block try_block_reading try_block_mutating
         invoke invoke_reading invoke_mutating failure_prefix
         has_not_found_clause andb] in *;
    unfold_tools; rewrite ?(ZephyrSpec.gate_opened _ ctx Hgate);
    unfold try_except; rewrite Hends; rewrite ?Hclass;
    eexists; reflexivity.
Qed.

End Tools.

(** ** Concrete runs *)

Import Doubles.
#[local] Existing Instance domain.
#[local] Existing Instance collaborators.

Lemma success_after_one_call_and_no_log_witness :
  logged (after_call empty_world (Call_get_testcase "JQA-T1" None))
  = logged empty_world
  /\ exists bc,
       backend_calls (after_call empty_world (Call_get_testcase "JQA-T1" None))
       = (backend_calls empty_world ++ [bc])%list.
Proof.
  apply (success_after_one_call_and_no_log (read_write obliging)
           (Read (Get_testcase "JQA-T1" None)) empty_world
           [("success", JBool true);
            ("test_case", JDict [("key", JStr "JQA-T1")])]
           (after_call empty_world (Call_get_testcase "JQA-T1" None)));
    reflexivity.
Defined.

Lemma reading_ignores_the_flag_witness :
  write_access_flag (read_only obliging) = false
  /\ invoke_reading (read_only obliging) (Get_testcase "JQA-T1" None)
     = invoke_reading (read_write obliging) (Get_testcase "JQA-T1" None).
Proof.
  split; [reflexivity|].
  apply (reading_ignores_the_flag (read_only obliging) (read_write obliging)
           (Get_testcase "JQA-T1" None)).
  reflexivity.
Defined.

Lemma no_client_no_call_witness :
  exists envelope w',
    invoke without_client (Write (Create_testcase "{}")) empty_world
    = (Ok envelope, w')
    /\ success envelope = Some (JBool false)
    /\ error_contains (exn_str not_configured_client) envelope = true
    /\ backend_calls w' = backend_calls empty_world.
Proof.
  apply (no_client_no_call without_client (Write (Create_testcase "{}"))
           empty_world not_configured_client); reflexivity.
Defined.

Lemma undecodable_payload_no_call_witness :
  json_loads "{not json" = Raise (fault JSONDecodeError "Expecting value")
  /\ exists msg,
       invoke_mutating (read_write obliging) (Create_testcase "{not json")
                       empty_world
       = (Ok [("success", JBool false);
              ("error", JStr (failure_prefix (Write (Create_testcase "{not json"))
                              ++ exn_str (fault JSONDecodeError "Expecting value")))],
          after_log empty_world
            [exception msg (fault JSONDecodeError "Expecting value")]).
Proof.
  split; [vm_compute; reflexivity|].
  apply (undecodable_payload_no_call (read_write obliging) obliging
           (Create_testcase "{not json") "{not json"
           (fault JSONDecodeError "Expecting value") empty_world);
    first [reflexivity | vm_compute; reflexivity].
Defined.

(** With the request model that refuses an empty step. *)
Lemma rejected_step_no_call_witness :
  @add_test_step domain strict_collaborators (read_write obliging)
    "10001" "10000" EmptyString None None empty_world
  = (Ok (failure_envelope
           (Write (Add_test_step "10001" "10000" EmptyString None None))
           "String should have at least 1 character"),
     after_log empty_world
       [exception "Unexpected error in add_test_step for issue '10001':"
          (fault (OtherError "ValidationError")
                 "String should have at least 1 character");
        log ERROR "add_test_step failed for issue '10001': An unexpected error occurred while adding the test step."]).
Proof.
  apply (@rejected_step_no_call domain strict_collaborators
           (read_write obliging) obliging "10001" "10000" EmptyString None None
           (fault (OtherError "ValidationError")
                  "String should have at least 1 character")
           empty_world); reflexivity.
Defined.

Lemma list_with_its_count_witness :
  invoke_reading (read_write two_found)
                 (Search_testcases (Some "projectKey = JQA") None 0 200)
                 empty_world
  = (Ok [("success", JBool true);
         ("test_cases", JList [JDict [("key", JStr "JQA-T1")];
                               JDict [("key", JStr "JQA-T2")]]);
         ("count", JInt 2)],
     after_call empty_world
       (Call_search_testcases (Some "projectKey = JQA") None 0 200)).
Proof.
  exact (list_with_its_count (read_write two_found) two_found
           (Search_testcases (Some "projectKey = JQA") None 0 200)
           [JDict [("key", JStr "JQA-T1")]; JDict [("key", JStr "JQA-T2")]]
           "test_cases" empty_world eq_refl eq_refl).
Defined.

(** Two steps, then a number, then a step: rejected at index 2. *)
Lemma batch_rejected_at_first_invalid_element_witness :
  add_multiple_test_steps (read_write obliging) "10001" "10000"
                          three_steps_and_a_number empty_world
  = (Ok [("success", JBool false);
         ("error", JStr ("Invalid step data at index " ++ str_of_nat 2 ++ ": "
                         ++ exn_str (no_attribute_get (JInt 7))));
         ("issue_id", JStr "10001");
         ("project_id", JStr "10000")],
     empty_world).
Proof.
  apply (batch_rejected_at_first_invalid_element (read_write obliging) obliging
           "10001" "10000" three_steps_and_a_number
           [JDict [("step", JStr "Log in")];
            JDict [("step", JStr "Open the plan")]]
           (JInt 7) [JDict [("step", JStr "Log out")]]
           (no_attribute_get (JInt 7)) empty_world);
    [ reflexivity | reflexivity | vm_compute; reflexivity
    | repeat constructor; eexists; vm_compute; reflexivity
    | reflexivity ].
Defined.

Lemma empty_batch_is_submitted_witness :
  add_multiple_test_steps (read_write obliging) "10001" "10000" "[]" empty_world
  = (Ok [("success", JBool true);
         ("test_steps", JList []);
         ("total_requested", JInt 0);
         ("total_created", JInt 0);
         ("issue_id", JStr "10001");
         ("project_id", JStr "10000")],
     after_call empty_world (Call_add_multiple_test_steps "10001" "10000" [])).
Proof.
  apply (empty_batch_is_submitted (read_write obliging) obliging
           "10001" "10000" "[]" [] empty_world);
    first [reflexivity | vm_compute; reflexivity].
Defined.

Lemma get_test_steps_not_found_is_a_warning_witness :
  get_test_steps (read_write (failing_with issue_not_found)) "10001" "10000"
                 empty_world
  = (Ok [("success", JBool false);
         ("error", JStr "Issue 10001 Not Found in project 10000");
         ("issue_id", JStr "10001");
         ("project_id", JStr "10000")],
     after_log (after_call empty_world (Call_get_test_steps "10001" "10000"))
       [log WARNING "get_test_steps failed for issue '10001': Issue 10001 Not Found in project 10000"]).
Proof.
  apply (get_test_steps_not_found_is_a_warning
           (read_write (failing_with issue_not_found)) "10001" "10000"
           empty_world issue_not_found
           (after_call empty_world (Call_get_test_steps "10001" "10000")));
    reflexivity.
Defined.

Lemma not_found_is_not_logged_witness :
  invoke (read_write (failing_with absent))
         (Write (Update_testcase "JQA-T1" "{}")) empty_world
  = (Ok [("success", JBool false);
         ("error", JStr "Test case not found: 404 Client Error: Not Found")],
     after_call empty_world (Call_update_testcase "JQA-T1" (JDict []))).
Proof.
  apply (not_found_is_not_logged (read_write (failing_with absent))
           (Write (Update_testcase "JQA-T1" "{}")) empty_world absent
           (after_call empty_world (Call_update_testcase "JQA-T1" (JDict []))));
    first [reflexivity | vm_compute; reflexivity].
Defined.

(** An authentication fault in [get_testcase]. *)
Lemma other_faults_are_failures_witness :
  is_authentication denied = true
  /\ exists msg,
       invoke (read_write (failing_with denied))
              (Read (Get_testcase "JQA-T1" None)) empty_world
       = (Ok [("success", JBool false);
              ("error", JStr "Failed to get test case: 401 Unauthorized")],
          after_log (after_call empty_world (Call_get_testcase "JQA-T1" None))
                    [exception msg denied]).
Proof.
  split; [reflexivity|].
  apply (other_faults_are_failures (read_write (failing_with denied))
           (Read (Get_testcase "JQA-T1" None)) empty_world denied
           (after_call empty_world (Call_get_testcase "JQA-T1" None)));
    reflexivity.
Defined.

End ZephyrMore.
